(** * Datadog permission automation: dashboards and monitors

    A shallow embedding of [updatedashboardpermissions.py] (which also
    holds the monitor script after the marker line
    [=== updatemonitor permissions.py ===]) and the properties its
    specification states about it.

    The two scripts talk to four remote Datadog services through the
    generated API client.  The services are not part of the repository:
    they are taken as an arbitrary record of endpoints ([Datadog]), each
    endpoint answering a request with a response or an exception.  Python
    functions become computations in a small monad [Py] that threads the
    observable state of one invocation (the list of API calls made, the
    lines printed, the remote policy store) and carries exceptions the way
    Python does. *)

From Stdlib Require Import ZArith Lia Ascii String.
From stdpp Require Import base option list strings gmap.

Local Open Scope string_scope.
Local Open Scope list_scope.

(** ** Python values used by the scripts *)

(** Exceptions.  Every constructor is an instance of a subclass of
    [Exception], so [except Exception] catches all of them.  Interrupts
    and interpreter exit ([BaseException] outside [Exception]) are not
    modelled. *)
Inductive Exception : Type :=
| KeyError (key : string)
| IndexError
| ValueError (literal : string)
| ApiException (status : Z) (reason : string)
| ApiAttributeError (attribute_name : string).

(** One piece of an f-string handed to [print]: literal text, an
    interpolated string, or an interpolated exception. *)
Inductive Fragment : Type :=
| Lit (text : string)
| Val (value : string)
| Err (e : Exception).

Definition Line : Type := list Fragment.

(** Truthiness of [None]/[str] values: [None] and [""] are falsy. *)
Definition truthy (v : option string) : bool :=
  match v with
  | None => false
  | Some "" => false
  | Some _ => true
  end.

(** Truthiness of an optional model object: objects are truthy, [None]
    is not. *)
Definition truthy_obj {A : Type} (v : option A) : bool :=
  match v with
  | None => false
  | Some _ => true
  end.

(** Truthiness of a list: empty is falsy. *)
Definition truthy_list {A : Type} (l : list A) : bool :=
  match l with
  | [] => false
  | _ :: _ => true
  end.

(** [str.split(sep)] for a one-character separator: the pieces between
    the occurrences of [sep]; never the empty list. *)
Fixpoint split (sep : ascii) (s : string) : list string :=
  match s with
  | EmptyString => [EmptyString]
  | String c s' =>
      if Ascii.eqb c sep then EmptyString :: split sep s'
      else match split sep s' with
           | piece :: pieces => String c piece :: pieces
           | [] => [String c EmptyString]
           end
  end.

Definition colon : ascii := ":"%char.

(** ** The client library's models (the fields the scripts use) *)

Record AuditLogsQueryFilter := {
  _from : string;
  query : string;
  to : string
}.

Record AuditLogsQueryOptions := {
  time_offset : Z;
  timezone : string
}.

Record AuditLogsQueryPageOptions := {
  limit : Z;
  cursor : option string
}.

Inductive AuditLogsSort := TIMESTAMP_ASCENDING | TIMESTAMP_DESCENDING.

(** Keyword arguments left out by the caller are [None]. *)
Record AuditLogsSearchEventsRequest := {
  filter : option AuditLogsQueryFilter;
  options : option AuditLogsQueryOptions;
  page : option AuditLogsQueryPageOptions;
  sort : option AuditLogsSort
}.

(** [event.attributes.attributes]: a JSON object whose entries (asset,
    user, ...) are themselves objects with string fields. *)
Record AuditLogsEvent := {
  attributes : gmap string (gmap string string)
}.

(** An attribute of a response model of the generated client.  The client
    sets the attributes the service sent: reading one it did not set
    raises [ApiAttributeError]; one the service sent as null reads as
    [None]. *)
Inductive attribute (A : Type) : Type :=
| unset
| none
| value (a : A).
Arguments unset {A}.
Arguments none {A}.
Arguments value {A} a.

Record AuditLogsResponsePage := {
  after : attribute string
}.

Record AuditLogsResponseMetadata := {
  meta_page : attribute AuditLogsResponsePage
}.

Record AuditLogsEventsResponse := {
  data : list AuditLogsEvent;
  meta : attribute AuditLogsResponseMetadata
}.

(** A team as returned by the membership listing and by the team search;
    only [id] is read. *)
Record Team := {
  id : string;
  name : string
}.

Record Monitor := {
  tags : list string
}.

Record RestrictionPolicyBinding := {
  relation : string;
  principals : list string
}.

Inductive RestrictionPolicyType := RESTRICTION_POLICY.

Record RestrictionPolicy := {
  policy_id : string;
  policy_type : RestrictionPolicyType;
  bindings : list RestrictionPolicyBinding
}.

Record RestrictionPolicyUpdateRequest := {
  policy_data : RestrictionPolicy
}.

(** ** The remote services *)

Inductive outcome (A : Type) : Type :=
| Returned (a : A)
| Raised (e : Exception)
| OutOfFuel.
Arguments Returned {A} a.
Arguments Raised {A} e.
Arguments OutOfFuel {A}.

(** An answer of a remote endpoint: a response or an exception. *)
Inductive answer (A : Type) : Type :=
| Ok (a : A)
| Fails (e : Exception).
Arguments Ok {A} a.
Arguments Fails {A} e.

Record Datadog := {
  audit_api : AuditLogsSearchEventsRequest -> answer AuditLogsEventsResponse;
  user_memberships : string -> answer (list Team);
  teams : string -> answer (list Team);
  monitors : Z -> answer Monitor;
  (* [None]: the policy service accepts the write *)
  policy_rejection : string -> RestrictionPolicyUpdateRequest -> option Exception
}.

Inductive ApiCall : Type :=
| SearchAuditLogs (body : AuditLogsSearchEventsRequest)
| GetUserMemberships (user_uuid : string)
| ListTeams (filter_keyword : string)
| GetMonitor (monitor_id : Z)
| UpdateRestrictionPolicy (resource_id : string) (body : RestrictionPolicyUpdateRequest).

(** What one invocation can be observed to do. *)
Record World := {
  calls : list ApiCall;
  stdout : list Line;
  policies : gmap string RestrictionPolicy
}.

Definition initial_world : World :=
  {| calls := []; stdout := []; policies := ∅ |}.

Definition Py (A : Type) : Type := World -> outcome A * World.

Definition ret {A} (a : A) : Py A := fun w => (Returned a, w).

Definition raise {A} (e : Exception) : Py A := fun w => (Raised e, w).

Definition out_of_fuel {A} : Py A := fun w => (OutOfFuel, w).

Definition bind {A B} (m : Py A) (k : A -> Py B) : Py B :=
  fun w =>
    match m w with
    | (Returned a, w') => k a w'
    | (Raised e, w') => (Raised e, w')
    | (OutOfFuel, w') => (OutOfFuel, w')
    end.

Declare Scope py_scope.
Delimit Scope py_scope with py.
Bind Scope py_scope with Py.

Notation "x <- m ;; k" := (bind m (fun x => k))
  (at level 20, m at level 99, k at level 200, only parsing) : py_scope.
Notation "m ;; k" := (bind m (fun _ => k))
  (at level 100, k at level 200, only parsing, right associativity) : py_scope.

Local Open Scope py_scope.

(** [try: body / except Exception as e: handler e]. *)
Definition try_except {A} (body : Py A) (handler : Exception -> Py A) : Py A :=
  fun w =>
    match body w with
    | (Raised e, w') => handler e w'
    | r => r
    end.

Definition print (l : Line) : Py unit :=
  fun w => (Returned tt,
            {| calls := calls w; stdout := stdout w ++ [l]; policies := policies w |}).

Definition record_call (c : ApiCall) : Py unit :=
  fun w => (Returned tt,
            {| calls := calls w ++ [c]; stdout := stdout w; policies := policies w |}).

Definition of_answer {A} (a : answer A) : Py A :=
  match a with
  | Ok x => ret x
  | Fails e => raise e
  end.

(** [d[key]] on a dict. *)
Definition subscript {V} (d : gmap string V) (key : string) : Py V :=
  match d !! key with
  | Some v => ret v
  | None => raise (KeyError key)
  end.

(** [l[i]] on a list, for an index that is not negative. *)
Definition index {A} (l : list A) (i : nat) : Py A :=
  match l !! i with
  | Some v => ret v
  | None => raise IndexError
  end.

(** [object.name] on an attribute of a response model. *)
Definition getattr {A} (attribute_name : string) (a : attribute A) : Py (option A) :=
  match a with
  | unset => raise (ApiAttributeError attribute_name)
  | none => ret None
  | value v => ret (Some v)
  end.

(** [[f(x) for x in l]]: elements are evaluated left to right and the
    first exception ends the comprehension. *)
Fixpoint comprehension {A B} (f : A -> Py B) (l : list A) : Py (list B) :=
  match l with
  | [] => ret []
  | x :: l' => y <- f x ;; ys <- comprehension f l' ;; ret (y :: ys)
  end.

(** [for x in l: body x]. *)
Fixpoint for_each {A} (l : list A) (body : A -> Py unit) : Py unit :=
  match l with
  | [] => ret tt
  | x :: l' => body x ;; for_each l' body
  end.

(** The string held by a value already tested truthy. *)
Definition str_of (v : option string) : string := default "" v.

(** [int(s)] on a string of ASCII characters: surrounding whitespace is
    dropped, one sign is allowed, and the digits may be grouped by single
    underscores.  Anything else raises [ValueError].  Strings with
    characters outside ASCII are outside this model: Python also reads the
    decimal digits and the spaces of other scripts, which takes the
    Unicode character database. *)
Definition is_space (c : ascii) : bool :=
  let n := nat_of_ascii c in
  ((9 <=? n)%nat && (n <=? 13)%nat) || (n =? 32)%nat.

Fixpoint lstrip (s : string) : string :=
  match s with
  | String c s' => if is_space c then lstrip s' else s
  | EmptyString => EmptyString
  end.

Definition strip (s : string) : string :=
  String.rev (lstrip (String.rev (lstrip s))).

Definition digit_of (c : ascii) : option Z :=
  let n := nat_of_ascii c in
  if ((48 <=? n)%nat && (n <=? 57)%nat)%bool then Some (Z.of_nat (n - 48)) else None.

Fixpoint digits (acc : Z) (after_digit : bool) (s : string) : option Z :=
  match s with
  | EmptyString => if after_digit then Some acc else None
  | String c s' =>
      match digit_of c with
      | Some d => digits (10 * acc + d)%Z true s'
      | None =>
          if (Ascii.eqb c "_" && after_digit)%bool then digits acc false s' else None
      end
  end.

(** CPython refuses to convert more than 4300 digits (its default
    limit). *)
Fixpoint digit_count (s : string) : nat :=
  match s with
  | EmptyString => 0
  | String c s' =>
      match digit_of c with
      | Some _ => S (digit_count s')
      | None => digit_count s'
      end
  end.

Definition int_literal (s : string) : option Z :=
  if (digit_count s <=? 4300)%nat then
    match strip s with
    | String "+" s' => digits 0 false s'
    | String "-" s' => Z.opp <$> digits 0 false s'
    | s' => digits 0 false s'
    end
  else None.

Definition int (s : string) : Py Z :=
  match int_literal s with
  | Some n => ret n
  | None => raise (ValueError s)
  end.

(** ** The API client's methods *)

Section Client.

Variable dd : Datadog.

Definition search_audit_logs (body : AuditLogsSearchEventsRequest)
  : Py AuditLogsEventsResponse :=
  record_call (SearchAuditLogs body) ;; of_answer (audit_api dd body).

Definition get_user_memberships (user_uuid : string) : Py (list Team) :=
  record_call (GetUserMemberships user_uuid) ;;
  of_answer (user_memberships dd user_uuid).

Definition list_teams (filter_keyword : string) : Py (list Team) :=
  record_call (ListTeams filter_keyword) ;; of_answer (teams dd filter_keyword).

Definition get_monitor (monitor_id : Z) : Py Monitor :=
  record_call (GetMonitor monitor_id) ;; of_answer (monitors dd monitor_id).

(** Modelled from the spec: the restriction-policy service is remote and
    its code is not in the repository.  Section 4.4 gives the contract of
    an accepted write: a full replace of any existing policy on that
    resource, with no merge with prior bindings.  A rejected write
    raises; the spec does not say what the store holds then, and the model
    takes the request to have had no effect. *)
Definition update_restriction_policy
    (resource_id : string) (body : RestrictionPolicyUpdateRequest) : Py unit :=
  record_call (UpdateRestrictionPolicy resource_id body) ;;
  match policy_rejection dd resource_id body with
  | Some e => raise e
  | None =>
      fun w => (Returned tt,
                {| calls := calls w;
                   stdout := stdout w;
                   policies := <[resource_id := policy_data body]> (policies w) |})
  end.

End Client.

(** [event.attributes.attributes['asset']['id']] *)
Definition asset_id (event : AuditLogsEvent) : Py string :=
  asset <- subscript (attributes event) "asset" ;;
  subscript asset "id".

(** ** The dashboard script *)

Module Dashboard.

Section Script.

Variable dd : Datadog.

Definition page_request (next_page_token : option string)
  : AuditLogsSearchEventsRequest :=
  {| filter := Some {| _from := "now-1m";
                       query := "@evt.name:Dashboard AND @action:created";
                       to := "now" |};
     options := Some {| time_offset := 0; timezone := "GMT" |};
     page := Some {| limit := 10; cursor := next_page_token |};
     sort := Some TIMESTAMP_ASCENDING |}.

(** [response.meta.page.after if response.meta and response.meta.page
    and response.meta.page.after else None] *)
Definition next_page_token_of (response : AuditLogsEventsResponse)
  : Py (option string) :=
  m <- getattr "meta" (meta response) ;;
  match m with
  | Some m =>
      p <- getattr "page" (meta_page m) ;;
      match p with
      | Some p =>
          a <- getattr "after" (after p) ;;
          if truthy a then ret a else ret None
      | None => ret None
      end
  | None => ret None
  end.

(** The [while True] loop, one iteration per unit of fuel. *)
Fixpoint pagination (fuel : nat) (dashboard_ids : list string)
    (next_page_token : option string) : Py (list string) :=
  match fuel with
  | O => out_of_fuel
  | S fuel' =>
      response <- search_audit_logs dd (page_request next_page_token) ;;
      ids <- comprehension asset_id (data response) ;;
      let dashboard_ids := dashboard_ids ++ ids in
      next_page_token <- next_page_token_of response ;;
      if negb (truthy next_page_token) then ret dashboard_ids
      else pagination fuel' dashboard_ids next_page_token
  end.

Definition get_dashboards_created_last_minute (fuel : nat) : Py (list string) :=
  pagination fuel [] None.

Definition creator_request (dashboard_id : string)
  : AuditLogsSearchEventsRequest :=
  {| filter := Some {| _from := "now-1m";
                       query := "@evt.name:Dashboard AND @action:created AND @asset.id:"
                                +:+ dashboard_id;
                       to := "now" |};
     options := None;
     page := None;
     sort := None |}.

Definition get_dashboard_creator_user_id (dashboard_id : string)
  : Py (option string) :=
  response <- search_audit_logs dd (creator_request dashboard_id) ;;
  match data response with
  | event :: _ => ret (default ∅ (attributes event !! "user") !! "id")
  | [] => ret None
  end.

Definition get_team_uuid_by_user_id (user_id : string) : Py (option string) :=
  try_except
    (response <- get_user_memberships dd user_id ;;
     match response with
     | team :: _ => ret (Some (id team))
     | [] => ret None
     end)
    (fun e =>
       print [Lit "⚠️ Error fetching team memberships for user "; Val user_id;
              Lit ": "; Err e] ;;
       ret None).

Definition policy_body (team_uuid dashboard_id : string)
  : RestrictionPolicyUpdateRequest :=
  {| policy_data :=
       {| policy_id := "dashboard:" +:+ dashboard_id;
          policy_type := RESTRICTION_POLICY;
          bindings :=
            [ {| relation := "editor";
                 principals := [ "team:" +:+ team_uuid;
                                 "role:e5091040-1d03-11ef-9dbc-da7ad0900005" ] |};
              {| relation := "viewer";
                 principals := [ "org:e4f8bb8c-1d03-11ef-9b95-da7ad0900005" ] |} ] |} |}.

Definition set_dashboard_permissions (team_uuid dashboard_id : string) : Py unit :=
  let body := policy_body team_uuid dashboard_id in
  update_restriction_policy dd ("dashboard:" +:+ dashboard_id) body.

(** The [try] block inside the [for] loop; [continue] ends it. *)
Definition process (dashboard_id : string) : Py unit :=
  user_id <- get_dashboard_creator_user_id dashboard_id ;;
  if negb (truthy user_id) then
    print [Lit "⚠️ No user found for dashboard "; Val dashboard_id;
           Lit ". Skipping."]
  else
    let user_id := str_of user_id in
    team_uuid <- get_team_uuid_by_user_id user_id ;;
    if negb (truthy team_uuid) then
      print [Lit "⚠️ No team UUID found for user "; Val user_id;
             Lit ". Skipping dashboard "; Val dashboard_id; Lit "."]
    else
      let team_uuid := str_of team_uuid in
      set_dashboard_permissions team_uuid dashboard_id ;;
      print [Lit "✅ Permissions set for dashboard ID: "; Val dashboard_id].

Definition guarded (dashboard_id : string) : Py unit :=
  try_except (process dashboard_id)
    (fun dashboard_error =>
       print [Lit "❌ Failed to process dashboard "; Val dashboard_id;
              Lit ": "; Err dashboard_error]).

Definition lambda_handler (fuel : nat) : Py unit :=
  try_except
    (dashboard_ids <- get_dashboards_created_last_minute fuel ;;
     if truthy_list dashboard_ids then for_each dashboard_ids guarded
     else print [Lit "ℹ️ No dashboards were created in the last minute."])
    (fun e => print [Lit "🚨 An error occurred: "; Err e]).

End Script.

End Dashboard.

(** ** The monitor script *)

Module Monitor.

Section Script.

Variable dd : Datadog.

Definition page_request : AuditLogsSearchEventsRequest :=
  {| filter := Some {| _from := "now-1m";
                       query := "@evt.name:Monitor AND @action:created";
                       to := "now" |};
     options := Some {| time_offset := 0; timezone := "GMT" |};
     page := Some {| limit := 10; cursor := None |};
     sort := Some TIMESTAMP_ASCENDING |}.

Definition get_monitors_created_last_minute : Py (list string) :=
  let body := page_request in
  response <- search_audit_logs dd body ;;
  monitor_ids <- comprehension asset_id (data response) ;;
  ret monitor_ids.

(** One entry of the dict comprehension:
    [item.split(":")[0]: item.split(":")[1]]. *)
Definition tag_entry (item : string) : Py (string * string) :=
  key <- index (split colon item) 0 ;;
  value <- index (split colon item) 1 ;;
  ret (key, value).

(** The dict a comprehension builds from its entries: a later entry
    replaces an earlier one with the same key. *)
Definition dict_of (entries : list (string * string)) : gmap string string :=
  foldl (fun d entry => <[entry.1 := entry.2]> d) ∅ entries.

Definition get_monitor_team (monitor_id : string) : Py string :=
  n <- int monitor_id ;;
  response <- get_monitor dd n ;;
  entries <- comprehension tag_entry (tags response) ;;
  let tags := dict_of entries in
  subscript tags "team".

Definition get_team_uuid_by_name (team_name : string) : Py (option string) :=
  try_except
    (response <- list_teams dd team_name ;;
     match response with
     | team :: _ => ret (Some (id team))
     | [] => ret None
     end)
    (fun e => print [Lit "Error fetching team details: "; Err e] ;; ret None).

Definition policy_body (team_uuid monitor_id : string)
  : RestrictionPolicyUpdateRequest :=
  {| policy_data :=
       {| policy_id := "monitor:" +:+ monitor_id;
          policy_type := RESTRICTION_POLICY;
          bindings :=
            [ {| relation := "editor";
                 principals := [ "team:" +:+ team_uuid;
                                 "role:e5091040-1d03-11ef-9dbc-da7ad0900005" ] |};
              {| relation := "viewer";
                 principals := [ "org:e4f8bb8c-1d03-11ef-9b95-da7ad0900005" ] |} ] |} |}.

Definition set_monitor_permissions (team_uuid monitor_id : string) : Py unit :=
  let body := policy_body team_uuid monitor_id in
  update_restriction_policy dd ("monitor:" +:+ monitor_id) body.

(** The body of the [for] loop; there is no [try] around it. *)
Definition process (monitor_id : string) : Py unit :=
  team_name <- get_monitor_team monitor_id ;;
  team_uuid <- get_team_uuid_by_name team_name ;;
  if truthy team_uuid then
    set_monitor_permissions (str_of team_uuid) monitor_id ;;
    print [Lit "✅ Permissions set for monitor ID: "; Val monitor_id]
  else
    print [Lit "⚠️ Team UUID not found for monitor ID: "; Val monitor_id].

Definition lambda_handler : Py unit :=
  try_except
    (monitor_ids <- get_monitors_created_last_minute ;;
     if truthy_list monitor_ids then for_each monitor_ids process
     else print [Lit "ℹ️ No monitors were created in the last minute."])
    (fun e => print [Lit "🚨 An error occurred: "; Err e]).

End Script.

End Monitor.

(** * Vocabulary of the properties *)

(** ** Worlds *)

Definition called (c : ApiCall) (w : World) : World :=
  {| calls := calls w ++ [c]; stdout := stdout w; policies := policies w |}.

Definition printed (l : Line) (w : World) : World :=
  {| calls := calls w; stdout := stdout w ++ [l]; policies := policies w |}.

Definition stored (resource_id : string) (p : RestrictionPolicy) (w : World) : World :=
  {| calls := calls w; stdout := stdout w;
     policies := <[resource_id := p]> (policies w) |}.


(** ** Tags as [key:value] strings *)

Definition has_colon (tag : string) : bool :=
  existsb (Ascii.eqb colon) (list_ascii_of_string tag).

(** The text before the first colon (all of it when there is none). *)
Fixpoint before_colon (s : string) : string :=
  match s with
  | EmptyString => EmptyString
  | String c s' => if Ascii.eqb c colon then EmptyString else String c (before_colon s')
  end.

(** The text after the first colon. *)
Fixpoint after_colon (s : string) : option string :=
  match s with
  | EmptyString => None
  | String c s' => if Ascii.eqb c colon then Some s' else after_colon s'
  end.

Definition key_of (tag : string) : string := before_colon tag.

(** The text between the first colon and the second (or the end). *)
Definition between_colons (tag : string) : string :=
  before_colon (default EmptyString (after_colon tag)).

(** The last tag of the list whose key is [key]. *)
Definition last_with_key (key : string) (tags : list string) : option string :=
  last (base.filter (fun tag => key_of tag = key) tags).

(** ** Pages of the audit log *)

(** The asset id of an event, when it has one. *)
Definition event_asset_id (event : AuditLogsEvent) : option string :=
  attributes event !! "asset" ≫= (fun asset => asset !! "id").

(** The ids of a list of events, in order. *)
Definition has_ids (events : list AuditLogsEvent) (ids : list string) : Prop :=
  Forall2 (fun event i => event_asset_id event = Some i) events ids.

(** What a response says about the next page: a cursor (a non-empty
    [after] token under [meta.page]), no cursor (one of [meta], [page],
    [after] is null, or the token is empty), or nothing readable (one of
    them is unset). *)
Inductive paging : Type :=
| Cursor (c : string)
| NoCursor
| Unreadable (attribute_name : string).

Definition paging_of (response : AuditLogsEventsResponse) : paging :=
  match meta response with
  | unset => Unreadable "meta"
  | none => NoCursor
  | value m =>
      match meta_page m with
      | unset => Unreadable "page"
      | none => NoCursor
      | value p =>
          match after p with
          | unset => Unreadable "after"
          | none => NoCursor
          | value "" => NoCursor
          | value c => Cursor c
          end
      end
  end.

(** The cursor a response carries: the [after] token of its page
    metadata when there is one and it is not the empty string. *)
Definition carried_cursor (response : AuditLogsEventsResponse) : option string :=
  match paging_of response with
  | Cursor c => Some c
  | _ => None
  end.

(** [linked dd start pages]: asked with cursor [start], the audit log
    answers with the first of [pages]; each page but the last carries the
    cursor that fetches the next one, and the last page says that there
    is none (a null or an empty token, not an unset attribute). *)
Inductive linked (dd : Datadog)
  : option string -> list AuditLogsEventsResponse -> Prop :=
| linked_last start response :
    audit_api dd (Dashboard.page_request start) = Ok response ->
    paging_of response = NoCursor ->
    linked dd start [response]
| linked_next start response c rest :
    audit_api dd (Dashboard.page_request start) = Ok response ->
    carried_cursor response = Some c ->
    linked dd (Some c) rest ->
    linked dd start (response :: rest).

(** The cursors the loop sends when it walks [pages] from [start]. *)
Definition tokens_sent (start : option string)
    (pages : list AuditLogsEventsResponse) : list (option string) :=
  start :: map carried_cursor (removelast pages).

Definition searched (tokens : list (option string)) (w : World) : World :=
  {| calls := calls w ++
              map (fun token => SearchAuditLogs (Dashboard.page_request token)) tokens;
     stdout := stdout w;
     policies := policies w |}.

(** The cursor that comes back when the dashboard query is sent with
    cursor [token]; [None] also when the request fails. *)
Definition next_cursor (dd : Datadog) (token : option string) : option string :=
  match audit_api dd (Dashboard.page_request token) with
  | Ok response => carried_cursor response
  | Fails _ => None
  end.

(** The cursor sequence of the service: [cursor_seq dd start k] comes back
    with page [k] (counted from 0) when paging starts at [start]; once no
    cursor comes back the sequence stays at [None]. *)
Fixpoint cursor_seq (dd : Datadog) (start : option string) (k : nat) : option string :=
  match k with
  | O => next_cursor dd start
  | S k' =>
      match cursor_seq dd start k' with
      | Some c => next_cursor dd (Some c)
      | None => None
      end
  end.

(** Modelled from the spec: a synthetic audit log (sections 6 and 8).  The
    service holds the events of the window that match the query and serves
    them [limit] at a time, oldest first.  A page that leaves events
    unserved carries a cursor, a token as long as the offset of the next
    page; the last page carries none. *)
Definition token_of (offset : nat) : string :=
  string_of_list_ascii (replicate offset "c"%char).

(** The offset a cursor of the synthetic audit log stands for. *)
Definition offset_of (token : option string) : nat :=
  match token with
  | Some c => String.length c
  | None => 0
  end.

Definition audit_log (window : list AuditLogsEvent)
    (body : AuditLogsSearchEventsRequest) : answer AuditLogsEventsResponse :=
  let size := match page body with
              | Some p => Z.to_nat (limit p)
              | None => 10
              end in
  let offset := offset_of (page body ≫= cursor) in
  let remaining := drop offset window in
  Ok {| data := take size remaining;
        meta := value {| meta_page :=
                           if (size <? length remaining)%nat
                           then value {| after := value (token_of (offset + size)) |}
                           else none |} |}.

(** ** Example services *)

Definition event_of (asset user : string) : AuditLogsEvent :=
  {| attributes := <["asset" := {["id" := asset]}]> {["user" := {["id" := user]}]} |}.

Definition anonymous_event (asset : string) : AuditLogsEvent :=
  {| attributes := {["asset" := {["id" := asset]}]} |}.

Definition query_of (asset : string) : string :=
  "@evt.name:Dashboard AND @action:created AND @asset.id:" +:+ asset.

(** An audit log that holds one creation event per (asset, user) pair:
    the paged query gets them all on one page, the query for one asset
    gets the events of that asset. *)
Definition audit_of (created : list (string * string))
    (body : AuditLogsSearchEventsRequest) : answer AuditLogsEventsResponse :=
  match page body with
  | Some _ =>
      Ok {| data := map (fun au => event_of au.1 au.2) created; meta := none |}
  | None =>
      Ok {| data :=
              map (fun au => event_of au.1 au.2)
                (base.filter
                   (fun au => Some (query_of au.1) = query <$> filter body)
                   created);
            meta := none |}
  end.

(** Two resources; the policy service rejects the write for the first. *)
Definition first_write_rejected : Datadog :=
  {| audit_api := audit_of [("1", "u1"); ("2", "u2")];
     user_memberships := fun _ => Ok [ {| id := "team-a"; name := "a" |} ];
     teams := fun _ => Ok [ {| id := "team-a"; name := "a" |} ];
     monitors := fun _ => Ok {| tags := ["env:prod"; "team:a"] |};
     policy_rejection :=
       fun resource_id _ =>
         if (String.eqb resource_id "monitor:1" || String.eqb resource_id "dashboard:1")%bool
         then Some (ApiException 500 "Internal Server Error")
         else None |}.

(** The example of section 8: [dash-1] was created by [u1], who is in team
    [t1]; [dash-2] was created by [u2], who is in no team.  Monitor 42 and
    monitor 43 carry the tags used below; any other monitor is tagged with
    a team the directory does not know. *)
Definition section8 : Datadog :=
  {| audit_api := audit_of [("dash-1", "u1"); ("dash-2", "u2")];
     user_memberships :=
       fun user => if String.eqb user "u1" then Ok [ {| id := "t1"; name := "one" |} ]
                   else Ok [];
     teams := fun _ => Ok [];
     monitors :=
       fun n => if (n =? 42)%Z
                then Ok {| tags := ["env:prod"; "team:a:b"; "service:web"; "team:core:x"; "tier:1"] |}
                else if (n =? 43)%Z
                then Ok {| tags := ["env:prod"; "oops"; "team:a"] |}
                else Ok {| tags := ["team:ghost"] |};
     policy_rejection := fun _ _ => None |}.

(** Three events on two pages linked by the cursor ["next"]. *)
Definition first_page : AuditLogsEventsResponse :=
  {| data := [anonymous_event "a1"; anonymous_event "a2"];
     meta := value {| meta_page := value {| after := value "next" |} |} |}.

Definition second_page : AuditLogsEventsResponse :=
  {| data := [anonymous_event "b1"]; meta := none |}.

Definition two_pages : Datadog :=
  {| audit_api :=
       fun body =>
         match page body ≫= cursor with
         | None => Ok first_page
         | Some c => if String.eqb c "next" then Ok second_page
                     else Fails (ApiException 400 "Bad Request")
         end;
     user_memberships := fun _ => Ok [];
     teams := fun _ => Ok [];
     monitors := fun _ => Fails (ApiException 404 "Not Found");
     policy_rejection := fun _ _ => None |}.

(** Twelve monitors created within the window, behind the synthetic audit
    log. *)
Definition twelve_ids : list string :=
  ["m1"; "m2"; "m3"; "m4"; "m5"; "m6"; "m7"; "m8"; "m9"; "m10"; "m11"; "m12"].

Definition synthetic (window : list AuditLogsEvent) : Datadog :=
  {| audit_api := audit_log window;
     user_memberships := fun _ => Ok [];
     teams := fun _ => Ok [];
     monitors := fun _ => Fails (ApiException 404 "Not Found");
     policy_rejection := fun _ _ => None |}.

(** ** Vocabulary of the further properties *)

(** The acting user's id of an event, when it has one. *)
Definition event_user_id (event : AuditLogsEvent) : option string :=
  attributes event !! "user" ≫= (fun user => user !! "id").

(** [walk dd start pages next]: asked with cursor [start], the audit log
    answers with [pages] one after the other, every one of them carrying
    the cursor that fetches the following one; [next] is the cursor the
    last of them carries ([start] itself when there is no page). *)
Inductive walk (dd : Datadog)
  : option string -> list AuditLogsEventsResponse -> option string -> Prop :=
| walk_done start : walk dd start [] start
| walk_step start response c rest next :
    audit_api dd (Dashboard.page_request start) = Ok response ->
    carried_cursor response = Some c ->
    walk dd (Some c) rest next ->
    walk dd start (response :: rest) next.

(** The calls one dashboard iteration can make: the creator search alone,
    followed by the membership listing, followed by one policy write for
    that dashboard. *)
Definition iteration_calls (dashboard_id : string) (group : list ApiCall) : Prop :=
  group = [SearchAuditLogs (Dashboard.creator_request dashboard_id)]
  \/ (exists user_id,
        group = [SearchAuditLogs (Dashboard.creator_request dashboard_id);
                 GetUserMemberships user_id])
  \/ (exists user_id team_uuid,
        group = [SearchAuditLogs (Dashboard.creator_request dashboard_id);
                 GetUserMemberships user_id;
                 UpdateRestrictionPolicy ("dashboard:" +:+ dashboard_id)
                   (Dashboard.policy_body team_uuid dashboard_id)]).

(** What a computation adds to the world: calls, lines, policy writes. *)
Record Effect := {
  new_calls : list ApiCall;
  new_lines : list Line;
  writes : list (string * RestrictionPolicy)
}.

Definition write_all (ws : list (string * RestrictionPolicy))
    (store : gmap string RestrictionPolicy) : gmap string RestrictionPolicy :=
  foldl (fun m kv => <[kv.1 := kv.2]> m) store ws.

Definition extended (d : Effect) (w : World) : World :=
  {| calls := calls w ++ new_calls d;
     stdout := stdout w ++ new_lines d;
     policies := write_all (writes d) (policies w) |}.

Definition no_effect : Effect :=
  {| new_calls := []; new_lines := []; writes := [] |}.

Definition both (d1 d2 : Effect) : Effect :=
  {| new_calls := new_calls d1 ++ new_calls d2;
     new_lines := new_lines d1 ++ new_lines d2;
     writes := writes d1 ++ writes d2 |}.

(** A computation whose outcome and effect do not depend on the world it
    starts from, and whose policy writes all go to keys in [K]. *)
Definition confined (K : string -> Prop) {A} (m : Py A) : Prop :=
  exists r d,
    Forall (fun kv => K kv.1) (writes d) /\ forall w, m w = (r, extended d w).

(** The policy the writes [ws] leave under [key], if any of them is for
    [key]: the last such write counts. *)
Fixpoint written (key : string) (ws : list (string * RestrictionPolicy))
  : option RestrictionPolicy :=
  match ws with
  | [] => None
  | kv :: ws' =>
      match written key ws' with
      | Some p => Some p
      | None => if decide (kv.1 = key) then Some kv.2 else None
      end
  end.

(** ** More example services *)

(** Every audit search fails. *)
Definition audit_down : Datadog :=
  {| audit_api := fun _ => Fails (ApiException 503 "Service Unavailable");
     user_memberships := fun _ => Ok [];
     teams := fun _ => Ok [];
     monitors := fun _ => Fails (ApiException 404 "Not Found");
     policy_rejection := fun _ _ => None |}.

(** The first page is served, the request for the second one fails. *)
Definition second_page_fails : Datadog :=
  {| audit_api :=
       fun body =>
         match page body ≫= cursor with
         | None => Ok first_page
         | Some _ => Fails (ApiException 503 "Service Unavailable")
         end;
     user_memberships := fun _ => Ok [];
     teams := fun _ => Ok [];
     monitors := fun _ => Fails (ApiException 404 "Not Found");
     policy_rejection := fun _ _ => None |}.

(** Three events, the second of which has no asset. *)
Definition malformed_response : AuditLogsEventsResponse :=
  {| data := [anonymous_event "a"; {| attributes := ∅ |}; anonymous_event "c"];
     meta := none |}.

Definition one_malformed : Datadog :=
  {| audit_api := fun _ => Ok malformed_response;
     user_memberships := fun _ => Ok [];
     teams := fun _ => Ok [];
     monitors := fun _ => Fails (ApiException 404 "Not Found");
     policy_rejection := fun _ _ => None |}.

(** Three resources; the policy service rejects the write for the one in
    the middle of the batch. *)
Definition rejected_in_the_middle : Datadog :=
  {| audit_api := audit_of [("2", "u2"); ("1", "u1"); ("3", "u3")];
     user_memberships := user_memberships first_write_rejected;
     teams := teams first_write_rejected;
     monitors := monitors first_write_rejected;
     policy_rejection := policy_rejection first_write_rejected |}.

Definition empty_page : AuditLogsEventsResponse :=
  {| data := []; meta := value {| meta_page := none |} |}.

(** ** Services for the pagination findings *)

(** One page of two events whose metadata has no [page] attribute: the
    service has nothing more to send and leaves the attribute out. *)
Definition page_without_cursor_attribute : AuditLogsEventsResponse :=
  {| data := [anonymous_event "a1"; anonymous_event "a2"];
     meta := value {| meta_page := unset |} |}.

Definition last_page_leaves_page_out : Datadog :=
  {| audit_api := fun _ => Ok page_without_cursor_attribute;
     user_memberships := fun _ => Ok [];
     teams := fun _ => Ok [];
     monitors := fun _ => Fails (ApiException 404 "Not Found");
     policy_rejection := fun _ _ => None |}.

(** The same page with [page] sent as null. *)
Definition page_with_null_page : AuditLogsEventsResponse :=
  {| data := [anonymous_event "a1"; anonymous_event "a2"];
     meta := value {| meta_page := none |} |}.

Definition last_page_sends_null : Datadog :=
  {| audit_api := fun _ => Ok page_with_null_page;
     user_memberships := fun _ => Ok [];
     teams := fun _ => Ok [];
     monitors := fun _ => Fails (ApiException 404 "Not Found");
     policy_rejection := fun _ _ => None |}.

(** An audit log that answers every request with an empty page and a
    cursor one character longer than the one it was asked with. *)
Definition ever_new_cursors : Datadog :=
  {| audit_api :=
       fun body =>
         Ok {| data := [];
               meta := value {| meta_page :=
                                  value {| after :=
                                             value (token_of
                                                      (S (offset_of (page body ≫= cursor)))) |} |} |};
     user_memberships := fun _ => Ok [];
     teams := fun _ => Ok [];
     monitors := fun _ => Fails (ApiException 404 "Not Found");
     policy_rejection := fun _ _ => None |}.

(** Strings made of ASCII characters only. *)
Definition ascii_only (s : string) : bool :=
  forallb (fun c => (nat_of_ascii c <? 128)%nat) (list_ascii_of_string s).
(** * Properties *)

(** ** The monad and the client *)

Lemma bind_returned {A B} (m : Py A) (k : A -> Py B) w a w' :
  m w = (Returned a, w') -> bind m k w = k a w'.
Proof. intros H. unfold bind. now rewrite H. Qed.

Lemma bind_raised {A B} (m : Py A) (k : A -> Py B) w e w' :
  m w = (Raised e, w') -> bind m k w = (Raised e, w').
Proof. intros H. unfold bind. now rewrite H. Qed.

Lemma bind_out_of_fuel {A B} (m : Py A) (k : A -> Py B) w w' :
  m w = (OutOfFuel, w') -> bind m k w = (OutOfFuel, w').
Proof. intros H. unfold bind. now rewrite H. Qed.

Lemma try_returned {A} (body : Py A) handler w a w' :
  body w = (Returned a, w') -> try_except body handler w = (Returned a, w').
Proof. intros H. unfold try_except. now rewrite H. Qed.

Lemma try_raised {A} (body : Py A) handler w e w' :
  body w = (Raised e, w') -> try_except body handler w = handler e w'.
Proof. intros H. unfold try_except. now rewrite H. Qed.

Lemma search_audit_logs_run dd body w :
  search_audit_logs dd body w =
    match audit_api dd body with
    | Ok response => (Returned response, called (SearchAuditLogs body) w)
    | Fails e => (Raised e, called (SearchAuditLogs body) w)
    end.
Proof. unfold search_audit_logs, bind, record_call. simpl. now destruct (audit_api dd body). Qed.

Lemma get_user_memberships_run dd user_uuid w :
  get_user_memberships dd user_uuid w =
    match user_memberships dd user_uuid with
    | Ok response => (Returned response, called (GetUserMemberships user_uuid) w)
    | Fails e => (Raised e, called (GetUserMemberships user_uuid) w)
    end.
Proof.
  unfold get_user_memberships, bind, record_call. simpl.
  now destruct (user_memberships dd user_uuid).
Qed.

Lemma list_teams_run dd keyword w :
  list_teams dd keyword w =
    match teams dd keyword with
    | Ok response => (Returned response, called (ListTeams keyword) w)
    | Fails e => (Raised e, called (ListTeams keyword) w)
    end.
Proof. unfold list_teams, bind, record_call. simpl. now destruct (teams dd keyword). Qed.

Lemma get_monitor_run dd n w :
  get_monitor dd n w =
    match monitors dd n with
    | Ok response => (Returned response, called (GetMonitor n) w)
    | Fails e => (Raised e, called (GetMonitor n) w)
    end.
Proof. unfold get_monitor, bind, record_call. simpl. now destruct (monitors dd n). Qed.

Lemma update_restriction_policy_run dd resource_id body w :
  update_restriction_policy dd resource_id body w =
    match policy_rejection dd resource_id body with
    | Some e => (Raised e, called (UpdateRestrictionPolicy resource_id body) w)
    | None => (Returned tt,
               stored resource_id (policy_data body)
                 (called (UpdateRestrictionPolicy resource_id body) w))
    end.
Proof.
  unfold update_restriction_policy, bind, record_call. simpl.
  now destruct (policy_rejection dd resource_id body).
Qed.

(** ** Permission Writer *)

(** C5. For every team id [T] and resource id [R] the Permission Writer
    sends one upsert whose policy has id ["dashboard:R"] (["monitor:R"] in
    the monitor script) and exactly two bindings: editor for the team and
    the fixed role, viewer for the fixed organization. *)
Theorem permission_writer_policy (dd : Datadog) (T R : string) (w : World) :
  calls (Dashboard.set_dashboard_permissions dd T R w).2 =
    calls w ++
    [ UpdateRestrictionPolicy ("dashboard:" +:+ R)
        {| policy_data :=
             {| policy_id := "dashboard:" +:+ R;
                policy_type := RESTRICTION_POLICY;
                bindings :=
                  [ {| relation := "editor";
                       principals := [ "team:" +:+ T;
                                       "role:e5091040-1d03-11ef-9dbc-da7ad0900005" ] |};
                    {| relation := "viewer";
                       principals := [ "org:e4f8bb8c-1d03-11ef-9b95-da7ad0900005" ] |} ] |} |} ]
  /\
  calls (Monitor.set_monitor_permissions dd T R w).2 =
    calls w ++
    [ UpdateRestrictionPolicy ("monitor:" +:+ R)
        {| policy_data :=
             {| policy_id := "monitor:" +:+ R;
                policy_type := RESTRICTION_POLICY;
                bindings :=
                  [ {| relation := "editor";
                       principals := [ "team:" +:+ T;
                                       "role:e5091040-1d03-11ef-9dbc-da7ad0900005" ] |};
                    {| relation := "viewer";
                       principals := [ "org:e4f8bb8c-1d03-11ef-9b95-da7ad0900005" ] |} ] |} |} ].
Proof.
  unfold Dashboard.set_dashboard_permissions, Monitor.set_monitor_permissions.
  rewrite !update_restriction_policy_run.
  split.
  - now destruct (policy_rejection dd _ (Dashboard.policy_body T R)).
  - now destruct (policy_rejection dd _ (Monitor.policy_body T R)).
Qed.

(** An accepted write leaves exactly the constructed policy under the
    resource id, whatever was stored there before. *)
Lemma dashboard_write_replaces dd T R w :
  policy_rejection dd ("dashboard:" +:+ R) (Dashboard.policy_body T R) = None ->
  policies (Dashboard.set_dashboard_permissions dd T R w).2 !! ("dashboard:" +:+ R)
    = Some (policy_data (Dashboard.policy_body T R)).
Proof.
  intros Hacc. unfold Dashboard.set_dashboard_permissions.
  rewrite update_restriction_policy_run, Hacc. simpl.
  apply lookup_insert_eq.
Qed.

Lemma monitor_write_replaces dd T R w :
  policy_rejection dd ("monitor:" +:+ R) (Monitor.policy_body T R) = None ->
  policies (Monitor.set_monitor_permissions dd T R w).2 !! ("monitor:" +:+ R)
    = Some (policy_data (Monitor.policy_body T R)).
Proof.
  intros Hacc. unfold Monitor.set_monitor_permissions.
  rewrite update_restriction_policy_run, Hacc. simpl.
  apply lookup_insert_eq.
Qed.

Lemma update_twice dd resource_id body w :
  let once := update_restriction_policy dd resource_id body w in
  let twice := update_restriction_policy dd resource_id body once.2 in
  twice.1 = once.1 /\
  policies twice.2 = policies once.2 /\
  stdout twice.2 = stdout w /\
  calls twice.2 = calls w ++ [ UpdateRestrictionPolicy resource_id body;
                                UpdateRestrictionPolicy resource_id body ].
Proof.
  cbv zeta. rewrite !update_restriction_policy_run.
  destruct (policy_rejection dd resource_id body) as [e|]; simpl;
    rewrite <- ?app_assoc; repeat split.
  apply insert_insert_eq.
Qed.

(** C6. The Permission Writer is idempotent: two calls with the same team
    id and resource id send the same upsert twice (the request is built
    from the two inputs alone), end the same way, and leave the policy
    store as one call leaves it. *)
Theorem permission_writer_idempotent (dd : Datadog) (T R : string) (w : World) :
  (let request :=
     UpdateRestrictionPolicy ("dashboard:" +:+ R) (Dashboard.policy_body T R) in
   let once := Dashboard.set_dashboard_permissions dd T R w in
   let twice := Dashboard.set_dashboard_permissions dd T R once.2 in
   twice.1 = once.1
   /\ policies twice.2 = policies once.2
   /\ calls once.2 = calls w ++ [request]
   /\ calls twice.2 = calls w ++ [request; request])
  /\
  (let request :=
     UpdateRestrictionPolicy ("monitor:" +:+ R) (Monitor.policy_body T R) in
   let once := Monitor.set_monitor_permissions dd T R w in
   let twice := Monitor.set_monitor_permissions dd T R once.2 in
   twice.1 = once.1
   /\ policies twice.2 = policies once.2
   /\ calls once.2 = calls w ++ [request]
   /\ calls twice.2 = calls w ++ [request; request]).
Proof.
  unfold Dashboard.set_dashboard_permissions, Monitor.set_monitor_permissions.
  split; cbv zeta.
  - destruct (update_twice dd ("dashboard:" +:+ R) (Dashboard.policy_body T R) w)
      as (Hr & Hp & _ & Hc).
    split; [exact Hr|]. split; [exact Hp|]. split; [|exact Hc].
    rewrite update_restriction_policy_run.
    now destruct (policy_rejection dd _ _).
  - destruct (update_twice dd ("monitor:" +:+ R) (Monitor.policy_body T R) w)
      as (Hr & Hp & _ & Hc).
    split; [exact Hr|]. split; [exact Hp|]. split; [|exact Hc].
    rewrite update_restriction_policy_run.
    now destruct (policy_rejection dd _ _).
Qed.

(** ** Team Identity Lookup *)

Lemma get_team_uuid_by_name_run dd team_name w :
  Monitor.get_team_uuid_by_name dd team_name w =
    match teams dd team_name with
    | Ok (team :: _) => (Returned (Some (id team)), called (ListTeams team_name) w)
    | Ok [] => (Returned None, called (ListTeams team_name) w)
    | Fails e =>
        (Returned None,
         printed [Lit "Error fetching team details: "; Err e]
           (called (ListTeams team_name) w))
    end.
Proof.
  unfold Monitor.get_team_uuid_by_name, try_except, bind.
  rewrite list_teams_run.
  destruct (teams dd team_name) as [[|team rest]|e]; reflexivity.
Qed.

Lemma get_team_uuid_by_user_id_run dd user_id w :
  Dashboard.get_team_uuid_by_user_id dd user_id w =
    match user_memberships dd user_id with
    | Ok (team :: _) => (Returned (Some (id team)), called (GetUserMemberships user_id) w)
    | Ok [] => (Returned None, called (GetUserMemberships user_id) w)
    | Fails e =>
        (Returned None,
         printed [Lit "⚠️ Error fetching team memberships for user "; Val user_id;
                  Lit ": "; Err e]
           (called (GetUserMemberships user_id) w))
    end.
Proof.
  unfold Dashboard.get_team_uuid_by_user_id, try_except, bind.
  rewrite get_user_memberships_run.
  destruct (user_memberships dd user_id) as [[|team rest]|e]; reflexivity.
Qed.

(** C8. [get_team_uuid_by_name] makes one team search for the keyword and
    returns the id of the first team found, [None] when no team is found,
    and [None] after printing the exception when the search raises; it
    never raises itself. *)
Theorem team_lookup_by_name (dd : Datadog) (team_name : string) (w : World) :
  Monitor.get_team_uuid_by_name dd team_name w =
    match teams dd team_name with
    | Ok (team :: _) => (Returned (Some (id team)), called (ListTeams team_name) w)
    | Ok [] => (Returned None, called (ListTeams team_name) w)
    | Fails e =>
        (Returned None,
         printed [Lit "Error fetching team details: "; Err e]
           (called (ListTeams team_name) w))
    end
  /\ (forall e, (Monitor.get_team_uuid_by_name dd team_name w).1 <> Raised e).
Proof.
  split; [apply get_team_uuid_by_name_run |].
  intros e. rewrite get_team_uuid_by_name_run.
  destruct (teams dd team_name) as [[|team rest]|e']; discriminate.
Qed.

(** C10. [get_team_uuid_by_user_id] makes one membership listing for the
    user and returns the id of the first membership, [None] when the list
    is empty (the function falls off its end), and [None] after printing
    the exception when the listing raises; it never raises itself. *)
Theorem team_lookup_by_user_id (dd : Datadog) (user_id : string) (w : World) :
  Dashboard.get_team_uuid_by_user_id dd user_id w =
    match user_memberships dd user_id with
    | Ok (team :: _) => (Returned (Some (id team)), called (GetUserMemberships user_id) w)
    | Ok [] => (Returned None, called (GetUserMemberships user_id) w)
    | Fails e =>
        (Returned None,
         printed [Lit "⚠️ Error fetching team memberships for user "; Val user_id;
                  Lit ": "; Err e]
           (called (GetUserMemberships user_id) w))
    end
  /\ (forall e, (Dashboard.get_team_uuid_by_user_id dd user_id w).1 <> Raised e).
Proof.
  split; [apply get_team_uuid_by_user_id_run |].
  intros e. rewrite get_team_uuid_by_user_id_run.
  destruct (user_memberships dd user_id) as [[|team rest]|e']; discriminate.
Qed.

(** ** Owner Resolver by tag *)

Lemma split_colon s :
  split colon s =
    before_colon s :: match after_colon s with
                      | Some rest => split colon rest
                      | None => []
                      end.
Proof.
  induction s as [|c s IH]; [reflexivity|].
  cbn [split before_colon after_colon].
  destruct (Ascii.eqb c colon); [reflexivity|].
  now rewrite IH.
Qed.

Lemma has_colon_after s : has_colon s = true <-> is_Some (after_colon s).
Proof.
  unfold has_colon. induction s as [|c s IH];
    cbn [existsb list_ascii_of_string after_colon].
  - split; [discriminate | intros [? ?]; discriminate].
  - rewrite Ascii.eqb_sym. destruct (Ascii.eqb c colon);
      cbn [orb]; [|exact IH].
    split; eauto.
Qed.

Lemma has_colon_false s : has_colon s = false <-> after_colon s = None.
Proof.
  destruct (has_colon s) eqn:H.
  - apply has_colon_after in H as [r Hr]. rewrite Hr. split; discriminate.
  - destruct (after_colon s) eqn:Hr; [|tauto].
    assert (has_colon s = true) by (apply has_colon_after; rewrite Hr; eauto).
    congruence.
Qed.

Lemma tag_entry_run item w :
  Monitor.tag_entry item w =
    if has_colon item then (Returned (key_of item, between_colons item), w)
    else (Raised IndexError, w).
Proof.
  unfold Monitor.tag_entry, key_of, between_colons.
  rewrite split_colon.
  destruct (has_colon item) eqn:H.
  - apply has_colon_after in H as [rest Hrest]. rewrite Hrest.
    rewrite (split_colon rest). reflexivity.
  - apply has_colon_false in H. rewrite H. reflexivity.
Qed.

Lemma comprehension_tags_ok ts w :
  (forall t, t ∈ ts -> has_colon t = true) ->
  comprehension Monitor.tag_entry ts w =
    (Returned (map (fun t => (key_of t, between_colons t)) ts), w).
Proof.
  induction ts as [|t ts IH]; intros Hall; [reflexivity|].
  simpl. unfold bind at 1. rewrite tag_entry_run.
  rewrite (Hall t) by (left).
  unfold bind at 1. rewrite IH; [reflexivity|].
  intros t' Ht'. apply Hall. now right.
Qed.

Lemma comprehension_tags_index_error ts w :
  (exists t, t ∈ ts /\ has_colon t = false) ->
  comprehension Monitor.tag_entry ts w = (Raised IndexError, w).
Proof.
  induction ts as [|t ts IH]; intros (t' & Hin & Hno).
  - inversion Hin.
  - simpl. unfold bind at 1. rewrite tag_entry_run.
    destruct (has_colon t) eqn:Ht; [|reflexivity].
    unfold bind at 1. rewrite IH; [reflexivity|].
    exists t'. split; [|exact Hno].
    inversion Hin; subst; [congruence | assumption].
Qed.

Lemma foldl_insert_lookup (key : string) ts (d : gmap string string) :
  foldl (fun d entry => <[entry.1 := entry.2]> d) d
        (map (fun t => (key_of t, between_colons t)) ts) !! key =
    match last_with_key key ts with
    | Some t => Some (between_colons t)
    | None => d !! key
    end.
Proof.
  unfold last_with_key. revert d.
  induction ts as [|t ts IH]; intros d; [reflexivity|].
  cbn [map foldl fst snd]. rewrite IH, filter_cons.
  destruct (decide (key_of t = key)) as [Hk|Hk].
  - destruct (base.filter _ ts) as [|t' l'].
    + cbn [last]. rewrite <- Hk. apply lookup_insert_eq.
    + change (last (t :: t' :: l')) with (last (t' :: l')).
      destruct (last (t' :: l')) eqn:Hl; [reflexivity|].
      apply last_None in Hl. discriminate.
  - destruct (last (base.filter _ ts)); [reflexivity|].
    now apply lookup_insert_ne.
Qed.

Lemma dict_of_lookup key ts :
  Monitor.dict_of (map (fun t => (key_of t, between_colons t)) ts) !! key =
    between_colons <$> last_with_key key ts.
Proof.
  unfold Monitor.dict_of. rewrite foldl_insert_lookup.
  destruct (last_with_key key ts); [reflexivity | apply lookup_empty].
Qed.

Lemma append_empty (s : string) : EmptyString +:+ s = s.
Proof. reflexivity. Qed.

Lemma append_String c (a s : string) : String c a +:+ s = String c (a +:+ s).
Proof. reflexivity. Qed.

Lemma before_colon_app a rest :
  has_colon a = false -> before_colon (a +:+ String colon rest) = a.
Proof.
  unfold has_colon. induction a as [|c a IH];
    rewrite ?append_empty, ?append_String;
    cbn [existsb list_ascii_of_string before_colon].
  - now rewrite Ascii.eqb_refl.
  - rewrite Ascii.eqb_sym. destruct (Ascii.eqb c colon);
      cbn [orb]; [discriminate|].
    intros H. now rewrite IH.
Qed.

Lemma after_colon_app a rest :
  has_colon a = false -> after_colon (a +:+ String colon rest) = Some rest.
Proof.
  unfold has_colon. induction a as [|c a IH];
    rewrite ?append_empty, ?append_String;
    cbn [existsb list_ascii_of_string after_colon].
  - now rewrite Ascii.eqb_refl.
  - rewrite Ascii.eqb_sym. destruct (Ascii.eqb c colon);
      cbn [orb]; [discriminate|].
    exact IH.
Qed.

Lemma forallb_false {A} (p : A -> bool) (l : list A) :
  forallb p l = false -> exists x, x ∈ l /\ p x = false.
Proof.
  induction l as [|x l IH]; cbn [forallb]; [discriminate|].
  destruct (p x) eqn:Hx; cbn [andb].
  - intros H. destruct (IH H) as (y & Hy & Hpy).
    exists y. split; [now right | exact Hpy].
  - intros _. exists x. split; [left | exact Hx].
Qed.

Lemma get_monitor_team_run dd monitor_id n ts w :
  int_literal monitor_id = Some n ->
  monitors dd n = Ok {| tags := ts |} ->
  Monitor.get_monitor_team dd monitor_id w =
    if forallb has_colon ts then
      match last_with_key "team" ts with
      | Some t => (Returned (between_colons t), called (GetMonitor n) w)
      | None => (Raised (KeyError "team"), called (GetMonitor n) w)
      end
    else (Raised IndexError, called (GetMonitor n) w).
Proof.
  intros Hint Hmon. unfold Monitor.get_monitor_team, int.
  rewrite Hint. unfold bind at 1. unfold ret at 1.
  unfold bind at 1. rewrite get_monitor_run, Hmon. simpl tags.
  destruct (forallb has_colon ts) eqn:Hall.
  - rewrite forallb_forall in Hall.
    unfold bind. rewrite comprehension_tags_ok.
    2:{ intros t Ht. apply Hall. now apply list_elem_of_In. }
    unfold subscript. rewrite dict_of_lookup.
    destruct (last_with_key "team" ts); reflexivity.
  - unfold bind. rewrite comprehension_tags_index_error; [reflexivity|].
    now apply forallb_false.
Qed.

Lemma last_with_key_middle key before t later :
  key_of t = key ->
  Forall (fun t' => key_of t' <> key) later ->
  last_with_key key (before ++ t :: later) = Some t.
Proof.
  intros Hk Hlater. unfold last_with_key.
  rewrite filter_app, filter_cons, decide_True by exact Hk.
  replace (base.filter (fun tag => key_of tag = key) later) with (@nil string).
  - apply last_snoc.
  - induction Hlater as [|t' later Ht' _ IH]; [reflexivity|].
    now rewrite filter_cons, decide_False.
Qed.

Lemma team_tag_parts a b :
  has_colon a = false ->
  key_of ("team:" +:+ a +:+ ":" +:+ b) = "team" /\
  between_colons ("team:" +:+ a +:+ ":" +:+ b) = a.
Proof.
  intros Ha. unfold key_of, between_colons.
  change ("team:" +:+ a +:+ ":" +:+ b)
    with ("team" +:+ String colon (a +:+ String colon b)).
  split.
  - now apply before_colon_app.
  - rewrite after_colon_app by reflexivity.
    now apply before_colon_app.
Qed.

(** C9. [get_monitor_team] cuts every tag at every colon and keeps the
    pieces at index 0 and 1.  Once the monitor has been fetched: a tag
    with no colon makes it raise [IndexError]; when every tag has a colon
    it returns the value of the last tag whose key is ["team"], and that
    value is the text between the first and the second colon, so a tag
    ["team:a:b"] yields ["a"]; with no such tag it raises [KeyError]. *)
Theorem get_monitor_team_tags
    (dd : Datadog) (monitor_id : string) (n : Z) (ts : list string) (w : World) :
  int_literal monitor_id = Some n ->
  monitors dd n = Ok {| tags := ts |} ->
  let r := (Monitor.get_monitor_team dd monitor_id w).1 in
  (Exists (fun t => has_colon t = false) ts -> r = Raised IndexError)
  /\
  (Forall (fun t => has_colon t = true) ts ->
   r = match last_with_key "team" ts with
       | Some t => Returned (between_colons t)
       | None => Raised (KeyError "team")
       end)
  /\
  (forall before t later,
     ts = before ++ t :: later ->
     Forall (fun t => has_colon t = true) ts ->
     key_of t = "team" ->
     Forall (fun t' => key_of t' <> "team") later ->
     r = Returned (between_colons t))
  /\
  (forall before a b later,
     ts = before ++ ("team:" +:+ a +:+ ":" +:+ b) :: later ->
     Forall (fun t => has_colon t = true) ts ->
     has_colon a = false ->
     Forall (fun t' => key_of t' <> "team") later ->
     r = Returned a).
Proof.
  intros Hint Hmon r.
  assert (Hall : Forall (fun t => has_colon t = true) ts ->
                 r = match last_with_key "team" ts with
                     | Some t => Returned (between_colons t)
                     | None => Raised (KeyError "team")
                     end).
  { intros Hcolon. subst r.
    rewrite (get_monitor_team_run dd monitor_id n ts w Hint Hmon).
    replace (forallb has_colon ts) with true.
    - now destruct (last_with_key "team" ts).
    - symmetry. apply forallb_forall. now apply List.Forall_forall. }
  repeat split.
  - intros Hex. subst r.
    rewrite (get_monitor_team_run dd monitor_id n ts w Hint Hmon).
    destruct (forallb has_colon ts) eqn:Hb; [|reflexivity].
    rewrite forallb_forall in Hb.
    apply List.Exists_exists in Hex as (t & Hin & Ht).
    rewrite (Hb t Hin) in Ht. discriminate.
  - exact Hall.
  - intros before t later Hts Hcolon Hk Hlater.
    rewrite (Hall Hcolon), Hts.
    now rewrite (last_with_key_middle "team" before t later Hk Hlater).
  - intros before a b later Hts Hcolon Ha Hlater.
    destruct (team_tag_parts a b Ha) as [Hk Hv].
    rewrite (Hall Hcolon), Hts.
    rewrite (last_with_key_middle "team" before _ later Hk Hlater).
    now rewrite Hv.
Qed.

(** ** Change Detector *)

Lemma asset_id_run event w :
  asset_id event w =
    match attributes event !! "asset" with
    | Some asset =>
        match asset !! "id" with
        | Some i => (Returned i, w)
        | None => (Raised (KeyError "id"), w)
        end
    | None => (Raised (KeyError "asset"), w)
    end.
Proof.
  unfold asset_id, bind, subscript.
  destruct (attributes event !! "asset") as [asset|]; [|reflexivity].
  unfold ret. destruct (asset !! "id"); reflexivity.
Qed.

Lemma comprehension_asset_ids events ids w :
  has_ids events ids ->
  comprehension asset_id events w = (Returned ids, w).
Proof.
  induction 1 as [|event i events ids Hi _ IH]; [reflexivity|].
  cbn [comprehension]. unfold bind at 1. rewrite asset_id_run.
  unfold event_asset_id in Hi.
  destruct (attributes event !! "asset") as [asset|]; [|discriminate].
  cbn in Hi. rewrite Hi.
  unfold bind at 1. now rewrite IH.
Qed.

(** The comprehension over the events touches nothing and ends. *)
Lemma comprehension_asset_id_pure events w :
  exists r, comprehension asset_id events w = (r, w) /\ r <> OutOfFuel.
Proof.
  induction events as [|event events (r & Hr & Hne)].
  - exists (Returned []). split; [reflexivity | discriminate].
  - cbn [comprehension]. unfold bind at 1. rewrite asset_id_run.
    destruct (attributes event !! "asset") as [asset|].
    2:{ eexists. split; [reflexivity | discriminate]. }
    destruct (asset !! "id") as [i|].
    2:{ eexists. split; [reflexivity | discriminate]. }
    unfold bind at 1. rewrite Hr.
    destruct r as [ids|e|]; [| |congruence];
      eexists; (split; [reflexivity | discriminate]).
Qed.

Lemma has_ids_take n events ids :
  has_ids events ids -> has_ids (take n events) (take n ids).
Proof. apply Forall2_take. Qed.

Lemma has_ids_drop n events ids :
  has_ids events ids -> has_ids (drop n events) (drop n ids).
Proof. apply Forall2_drop. Qed.

Lemma get_monitors_run dd w :
  Monitor.get_monitors_created_last_minute dd w =
    match audit_api dd Monitor.page_request with
    | Ok response =>
        comprehension asset_id (data response)
          (called (SearchAuditLogs Monitor.page_request) w)
    | Fails e => (Raised e, called (SearchAuditLogs Monitor.page_request) w)
    end.
Proof.
  unfold Monitor.get_monitors_created_last_minute. cbv zeta.
  unfold bind at 1. rewrite search_audit_logs_run.
  destruct (audit_api dd Monitor.page_request) as [response|e]; [|reflexivity].
  unfold bind, ret.
  destruct (comprehension asset_id (data response) _) as [[ids|e|] w']; reflexivity.
Qed.

(** C4. [get_monitors_created_last_minute] sends exactly one audit-log
    search, with page limit 10 and no cursor, whatever the answer is.  Its
    result is the ids of the events of that one response, even when the
    response carries a cursor to a next page; so against an audit log that
    holds the window's events and serves them ten at a time it returns
    the first ten ids only, and the rest of the window is left out without
    an error.  When the response has no events it returns the empty
    list. *)
Theorem monitors_single_page (dd : Datadog) (w : World) :
  let run := Monitor.get_monitors_created_last_minute dd w in
  calls run.2 =
    calls w ++
    [ SearchAuditLogs
        {| filter := Some {| _from := "now-1m";
                             query := "@evt.name:Monitor AND @action:created";
                             to := "now" |};
           options := Some {| time_offset := 0; timezone := "GMT" |};
           page := Some {| limit := 10; cursor := None |};
           sort := Some TIMESTAMP_ASCENDING |} ]
  /\ stdout run.2 = stdout w
  /\ policies run.2 = policies w
  /\ (forall response ids,
        audit_api dd Monitor.page_request = Ok response ->
        has_ids (data response) ids ->
        run.1 = Returned ids)
  /\ (forall response,
        audit_api dd Monitor.page_request = Ok response ->
        data response = [] ->
        run.1 = Returned [])
  /\ (forall window ids,
        audit_api dd Monitor.page_request = audit_log window Monitor.page_request ->
        has_ids window ids ->
        run.1 = Returned (take 10 ids) /\
        ids = take 10 ids ++ drop 10 ids /\
        (10 < length window -> drop 10 ids <> [])).
Proof.
  cbv zeta. rewrite get_monitors_run.
  assert (Hids : forall response ids,
             audit_api dd Monitor.page_request = Ok response ->
             has_ids (data response) ids ->
             (match audit_api dd Monitor.page_request with
              | Ok response =>
                  comprehension asset_id (data response)
                    (called (SearchAuditLogs Monitor.page_request) w)
              | Fails e => (Raised e, called (SearchAuditLogs Monitor.page_request) w)
              end).1 = Returned ids).
  { intros response ids Hresp Hhas. rewrite Hresp.
    now rewrite (comprehension_asset_ids _ ids). }
  assert (Hworld :
    (match audit_api dd Monitor.page_request with
     | Ok response =>
         comprehension asset_id (data response)
           (called (SearchAuditLogs Monitor.page_request) w)
     | Fails e => (Raised e, called (SearchAuditLogs Monitor.page_request) w)
     end).2 = called (SearchAuditLogs Monitor.page_request) w).
  { destruct (audit_api dd Monitor.page_request) as [response|e]; [|reflexivity].
    destruct (comprehension_asset_id_pure (data response)
                (called (SearchAuditLogs Monitor.page_request) w)) as (r & -> & _).
    reflexivity. }
  rewrite Hworld.
  split; [reflexivity|]. split; [reflexivity|]. split; [reflexivity|].
  split; [exact Hids|]. split.
  - intros response Hresp Hdata. apply (Hids response []); [exact Hresp|].
    rewrite Hdata. constructor.
  - intros window ids Hlog Hhas. split; [|split].
    + eapply Hids; [exact Hlog|]. cbn. rewrite drop_0. now apply has_ids_take.
    + symmetry. apply take_drop.
    + intros Hlen Hnil. apply (f_equal length) in Hnil.
      rewrite length_drop, <- (Forall2_length _ _ _ Hhas) in Hnil.
      cbn in Hnil. lia.
Qed.

Lemma next_page_token_run response w :
  Dashboard.next_page_token_of response w =
    match paging_of response with
    | Cursor c => (Returned (Some c), w)
    | NoCursor => (Returned None, w)
    | Unreadable attribute_name => (Raised (ApiAttributeError attribute_name), w)
    end.
Proof.
  unfold Dashboard.next_page_token_of, paging_of, getattr, bind.
  destruct (meta response) as [| |m]; [reflexivity | reflexivity|]. cbn.
  destruct (meta_page m) as [| |p]; [reflexivity | reflexivity|]. cbn.
  destruct (after p) as [| |[|c s]]; reflexivity.
Qed.

Lemma cursor_truthy response c :
  paging_of response = Cursor c -> truthy (Some c) = true.
Proof.
  unfold paging_of.
  destruct (meta response) as [| |m]; [discriminate | discriminate|].
  destruct (meta_page m) as [| |p]; [discriminate | discriminate|].
  destruct (after p) as [| |[|a s]]; [discriminate | discriminate | discriminate|].
  intros [= <-]. reflexivity.
Qed.

Lemma carried_cursor_paging response c :
  carried_cursor response = Some c <-> paging_of response = Cursor c.
Proof.
  unfold carried_cursor. destruct (paging_of response); split; congruence.
Qed.

(** An empty [after] token is falsy: the loop reads it as no cursor. *)
Lemma empty_after_is_no_cursor events w :
  Dashboard.next_page_token_of
    {| data := events;
       meta := value {| meta_page := value {| after := value "" |} |} |} w
  = (Returned None, w).
Proof. reflexivity. Qed.

Lemma pagination_step dd fuel acc token w :
  Dashboard.pagination dd (S fuel) acc token w =
    match audit_api dd (Dashboard.page_request token) with
    | Fails e =>
        (Raised e, called (SearchAuditLogs (Dashboard.page_request token)) w)
    | Ok response =>
        match comprehension asset_id (data response)
                (called (SearchAuditLogs (Dashboard.page_request token)) w) with
        | (Returned ids, w1) =>
            match carried_cursor response with
            | Some c => Dashboard.pagination dd fuel (acc ++ ids) (Some c) w1
            | None =>
                match paging_of response with
                | Unreadable attribute_name =>
                    (Raised (ApiAttributeError attribute_name), w1)
                | _ => (Returned (acc ++ ids), w1)
                end
            end
        | (Raised e, w1) => (Raised e, w1)
        | (OutOfFuel, w1) => (OutOfFuel, w1)
        end
    end.
Proof.
  cbn [Dashboard.pagination]. unfold bind at 1.
  rewrite search_audit_logs_run.
  destruct (audit_api dd (Dashboard.page_request token)) as [response|e];
    [|reflexivity].
  unfold bind at 1.
  destruct (comprehension asset_id (data response) _) as [[ids|e|] w1];
    [|reflexivity|reflexivity].
  unfold bind at 1. rewrite next_page_token_run. unfold carried_cursor.
  destruct (paging_of response) as [c| |attribute_name] eqn:Hc;
    [|reflexivity|reflexivity].
  now rewrite (cursor_truthy _ _ Hc).
Qed.

Lemma removelast_succ_length {A} (l : list A) :
  l <> [] -> S (length (removelast l)) = length l.
Proof.
  induction l as [|x l IH]; [contradiction|]. intros _.
  destruct l as [|y l]; [reflexivity|].
  change (removelast (x :: y :: l)) with (x :: removelast (y :: l)).
  cbn [length]. now rewrite IH.
Qed.

Lemma linked_nonempty dd start pages : linked dd start pages -> pages <> [].
Proof. now destruct 1. Qed.

Lemma searched_called token tokens w :
  searched tokens (called (SearchAuditLogs (Dashboard.page_request token)) w)
  = searched (token :: tokens) w.
Proof.
  unfold searched, called. cbn [calls stdout policies map].
  now rewrite <- app_assoc.
Qed.

Lemma pagination_linked dd start pages :
  linked dd start pages ->
  forall idss fuel acc w,
    Forall2 (fun response ids => has_ids (data response) ids) pages idss ->
    length pages <= fuel ->
    Dashboard.pagination dd fuel acc start w =
      (Returned (acc ++ concat idss), searched (tokens_sent start pages) w).
Proof.
  induction 1 as [start response Hresp Hlast
                 |start response c rest Hresp Hnext Hrest IH];
    intros idss fuel acc w Hids Hfuel.
  - destruct fuel as [|fuel]; [cbn in Hfuel; lia|].
    apply Forall2_cons_inv_l in Hids as (ids & idss' & Hhas & Hnil & ->).
    apply Forall2_nil_inv_l in Hnil as ->.
    rewrite pagination_step, Hresp.
    rewrite (comprehension_asset_ids _ ids _ Hhas).
    unfold carried_cursor. rewrite Hlast.
    cbn [concat]. rewrite app_nil_r.
    reflexivity.
  - destruct fuel as [|fuel]; [cbn in Hfuel; lia|].
    apply Forall2_cons_inv_l in Hids as (ids & idss' & Hhas & Hids' & ->).
    rewrite pagination_step, Hresp.
    rewrite (comprehension_asset_ids _ ids _ Hhas), Hnext.
    rewrite (IH idss' fuel (acc ++ ids) _ Hids') by (cbn in Hfuel; lia).
    cbn [concat]. rewrite app_assoc.
    f_equal. rewrite searched_called.
    unfold tokens_sent.
    destruct rest as [|page rest]; [now apply linked_nonempty in Hrest|].
    cbn [removelast map]. now rewrite Hnext.
Qed.

(** When the audit log holds [P] pages linked by cursors and the last
    page says that there is no cursor (see [linked]), the dashboard Change
    Detector returns the asset ids of all their events, page after page
    and in the order of each page, every event once.  It sends one request
    per page: the first without cursor, each later one with the cursor of
    the page before, all with limit 10. *)
Theorem dashboards_all_pages
    (dd : Datadog) (pages : list AuditLogsEventsResponse)
    (idss : list (list string)) (fuel : nat) (w : World) :
  linked dd None pages ->
  Forall2 (fun response ids => has_ids (data response) ids) pages idss ->
  length pages <= fuel ->
  Dashboard.get_dashboards_created_last_minute dd fuel w =
    (Returned (concat idss),
     {| calls :=
          calls w ++
          map (fun token =>
                 SearchAuditLogs
                   {| filter := Some {| _from := "now-1m";
                                        query := "@evt.name:Dashboard AND @action:created";
                                        to := "now" |};
                      options := Some {| time_offset := 0; timezone := "GMT" |};
                      page := Some {| limit := 10; cursor := token |};
                      sort := Some TIMESTAMP_ASCENDING |})
              (None :: map carried_cursor (removelast pages));
        stdout := stdout w;
        policies := policies w |})
  /\ length (None :: map carried_cursor (removelast pages)) = length pages.
Proof.
  intros Hlinked Hids Hfuel. split.
  - unfold Dashboard.get_dashboards_created_last_minute.
    now rewrite (pagination_linked dd None pages Hlinked idss fuel [] w Hids Hfuel).
  - cbn [length]. rewrite length_map.
    apply linked_nonempty in Hlinked.
    now apply removelast_succ_length.
Qed.

(** *** The cursor sequence and the end of the loop *)

Lemma cursor_seq_head dd start k :
  cursor_seq dd start (S k) =
    match next_cursor dd start with
    | Some c => cursor_seq dd (Some c) k
    | None => None
    end.
Proof.
  induction k as [|k IH].
  - cbn [cursor_seq]. reflexivity.
  - change (cursor_seq dd start (S (S k)))
      with (match cursor_seq dd start (S k) with
            | Some c => next_cursor dd (Some c)
            | None => None
            end).
    rewrite IH. now destruct (next_cursor dd start).
Qed.

Lemma cursor_seq_None_stays dd start k n :
  cursor_seq dd start k = None -> k <= n -> cursor_seq dd start n = None.
Proof.
  intros Hk Hle. induction Hle as [|n _ IH]; [exact Hk|].
  cbn [cursor_seq]. now rewrite IH.
Qed.

Lemma cursor_seq_shift dd start i j m :
  cursor_seq dd start i = cursor_seq dd start j ->
  cursor_seq dd start (m + i) = cursor_seq dd start (m + j).
Proof.
  intros Hij. induction m as [|m IH]; [exact Hij|].
  cbn [Nat.add cursor_seq]. now rewrite IH.
Qed.

Lemma cursor_seq_cycle dd start i d c m :
  cursor_seq dd start i = Some c ->
  cursor_seq dd start (d + i) = Some c ->
  cursor_seq dd start (m * d + i) = Some c.
Proof.
  intros Hi Hd. induction m as [|m IH]; [exact Hi|].
  replace (S m * d + i) with (m * d + (d + i)) by lia.
  rewrite <- (cursor_seq_shift dd start i (d + i) (m * d)); [exact IH|].
  now rewrite Hi, Hd.
Qed.

Lemma cursor_seq_no_repeat_lt dd start k i j c :
  cursor_seq dd start k = None ->
  cursor_seq dd start i = Some c ->
  cursor_seq dd start j = Some c ->
  ~ i < j.
Proof.
  intros Hk Hi Hj Hlt.
  assert (Hcycle : cursor_seq dd start (k * (j - i) + i) = Some c).
  { apply cursor_seq_cycle; [exact Hi|].
    now replace (j - i + i) with j by lia. }
  rewrite (cursor_seq_None_stays dd start k) in Hcycle; [discriminate|exact Hk|].
  nia.
Qed.

Lemma cursor_seq_never_repeats dd start k i j c :
  cursor_seq dd start k = None ->
  cursor_seq dd start i = Some c ->
  cursor_seq dd start j = Some c ->
  i = j.
Proof.
  intros Hk Hi Hj.
  destruct (Nat.lt_trichotomy i j) as [Hlt|[Heq|Hgt]]; [|exact Heq|].
  - now destruct (cursor_seq_no_repeat_lt dd start k i j c).
  - now destruct (cursor_seq_no_repeat_lt dd start k j i c).
Qed.

Lemma pagination_ends dd k :
  forall start acc w fuel,
    cursor_seq dd start k = None ->
    k < fuel ->
    Dashboard.pagination dd fuel acc start w
      = Dashboard.pagination dd (S k) acc start w
    /\ (Dashboard.pagination dd (S k) acc start w).1 <> OutOfFuel.
Proof.
  induction k as [|k IH]; intros start acc w fuel Hnone Hfuel;
    (destruct fuel as [|fuel]; [lia|]);
    rewrite !pagination_step;
    [|rewrite cursor_seq_head in Hnone]; cbn [cursor_seq] in Hnone;
    unfold next_cursor in Hnone;
    (destruct (audit_api dd (Dashboard.page_request start)) as [response|e];
     [|split; [reflexivity | discriminate]]);
    destruct (comprehension_asset_id_pure (data response)
                (called (SearchAuditLogs (Dashboard.page_request start)) w))
      as (r & -> & Hr);
    (destruct r as [ids|e|]; [|split; [reflexivity | discriminate]|congruence]).
  - rewrite Hnone.
    destruct (paging_of response); split; (reflexivity || discriminate).
  - destruct (carried_cursor response) as [c|].
    + apply IH; [exact Hnone | lia].
    + destruct (paging_of response); split; (reflexivity || discriminate).
Qed.

Lemma pagination_returns_at_no_cursor dd fuel :
  forall start acc w ids w',
    Dashboard.pagination dd fuel acc start w = (Returned ids, w') ->
    exists j, j < fuel
      /\ cursor_seq dd start j = None
      /\ (forall i, i < j -> cursor_seq dd start i <> None)
      /\ length (calls w') = length (calls w) + S j.
Proof.
  induction fuel as [|fuel IH]; intros start acc w ids w' Hrun;
    [discriminate|].
  rewrite pagination_step in Hrun.
  destruct (audit_api dd (Dashboard.page_request start)) as [response|e] eqn:Hresp;
    [|discriminate].
  destruct (comprehension_asset_id_pure (data response)
              (called (SearchAuditLogs (Dashboard.page_request start)) w))
    as (r & Hcomp & Hr).
  rewrite Hcomp in Hrun.
  destruct r as [ids0|e|]; [|discriminate|discriminate].
  assert (Hnext : next_cursor dd start = carried_cursor response)
    by (unfold next_cursor; now rewrite Hresp).
  destruct (carried_cursor response) as [c|] eqn:Hc.
  - destruct (IH _ _ _ _ _ Hrun) as (j & Hj & Hnone & Hsome & Hlen).
    exists (S j). repeat split.
    + lia.
    + now rewrite cursor_seq_head, Hnext.
    + intros [|i] Hi.
      * cbn [cursor_seq]. now rewrite Hnext.
      * rewrite cursor_seq_head, Hnext. apply Hsome. lia.
    + rewrite Hlen. cbn [called calls]. rewrite length_app. cbn [length]. lia.
  - assert (Hw' : w' = called (SearchAuditLogs (Dashboard.page_request start)) w)
      by (destruct (paging_of response); congruence).
    subst w'. exists 0. repeat split.
    + lia.
    + exact Hnext.
    + intros i Hi. lia.
    + cbn [called calls]. rewrite length_app. cbn [length]. lia.
Qed.

(** A service that repeats a cursor never lets the loop return. *)
Lemma repeated_cursor_never_returns dd i j c fuel w ids w' :
  cursor_seq dd None i = Some c ->
  cursor_seq dd None j = Some c ->
  i <> j ->
  Dashboard.get_dashboards_created_last_minute dd fuel w <> (Returned ids, w').
Proof.
  intros Hi Hj Hne Hrun.
  apply pagination_returns_at_no_cursor in Hrun as (k & _ & Hnone & _).
  apply Hne. now apply (cursor_seq_never_repeats dd None k i j c).
Qed.

Lemma cursor_seq_first_none dd start n :
  (exists i, i < n /\ cursor_seq dd start i = None)
  \/ (forall i, i < n -> cursor_seq dd start i <> None).
Proof.
  induction n as [|n [(i & Hi & Hnone)|Hall]].
  - right. intros i Hi. lia.
  - left. exists i. split; [lia | exact Hnone].
  - destruct (cursor_seq dd start n) as [c|] eqn:Hn.
    + right. intros i Hi.
      destruct (decide (i = n)) as [->|Hne]; [now rewrite Hn | apply Hall; lia].
    + left. exists n. split; [lia | exact Hn].
Qed.

Lemma cursor_seq_prefix dd start n :
  (forall i, i < n -> cursor_seq dd start i <> None) ->
  exists l : list string,
    length l = n /\ forall i, i < n -> cursor_seq dd start i = l !! i.
Proof.
  induction n as [|n IH]; intros Hall.
  - exists []. split; [reflexivity | intros i Hi; lia].
  - destruct IH as (l & Hlen & Hl); [intros i Hi; apply Hall; lia|].
    destruct (cursor_seq dd start n) as [c|] eqn:Hn;
      [|now destruct (Hall n ltac:(lia))].
    exists (l ++ [c]). split; [rewrite length_app; cbn; lia|].
    intros i Hi. destruct (decide (i = n)) as [->|Hne].
    + rewrite Hn. symmetry. rewrite <- Hlen. apply list_lookup_middle. reflexivity.
    + rewrite lookup_app_l by lia. apply Hl. lia.
Qed.

(** With finitely many cursors to hand out, a sequence that never repeats
    one runs out of them: it yields no cursor after at most that many
    pages. *)
Lemma never_repeating_sequence_ends dd (cs : list string) :
  (forall i c, cursor_seq dd None i = Some c -> c ∈ cs) ->
  (forall i j c,
     cursor_seq dd None i = Some c -> cursor_seq dd None j = Some c -> i = j) ->
  exists k, k <= length cs /\ cursor_seq dd None k = None.
Proof.
  intros Hfin Hnorep.
  destruct (cursor_seq_first_none dd None (S (length cs)))
    as [(i & Hi & Hnone)|Hall].
  - exists i. split; [lia | exact Hnone].
  - destruct (cursor_seq_prefix dd None _ Hall) as (l & Hlen & Hl).
    assert (Hnodup : NoDup l).
    { apply NoDup_alt. intros i j c Hi Hj.
      apply (Hnorep i j c).
      - rewrite Hl; [exact Hi|]. rewrite <- Hlen. now apply lookup_lt_Some in Hi.
      - rewrite Hl; [exact Hj|]. rewrite <- Hlen. now apply lookup_lt_Some in Hj. }
    assert (Hsub : forall c, c ∈ l -> c ∈ cs).
    { intros c Hc. apply list_elem_of_lookup in Hc as (i & Hi).
      apply (Hfin i). rewrite Hl; [exact Hi|].
      rewrite <- Hlen. now apply lookup_lt_Some in Hi. }
    pose proof (submseteq_length _ _ (NoDup_submseteq _ _ Hnodup Hsub)) as Hle.
    lia.
Qed.

(** *** The synthetic audit log *)

Lemma token_of_length n : String.length (token_of n) = n.
Proof.
  unfold token_of. induction n as [|n IH]; [reflexivity|].
  cbn [replicate string_of_list_ascii String.length]. now rewrite IH.
Qed.

Lemma audit_log_page window token :
  audit_log window (Dashboard.page_request token) =
    Ok {| data := take 10 (drop (offset_of token) window);
          meta := value {| meta_page :=
                             if (10 <? length (drop (offset_of token) window))%nat
                             then value {| after := value (token_of (offset_of token + 10)) |}
                             else none |} |}.
Proof. destruct token; reflexivity. Qed.

Lemma carried_cursor_page events c :
  carried_cursor {| data := events;
                    meta := value {| meta_page := value {| after := value (token_of (c + 10)) |} |} |}
  = Some (token_of (c + 10)).
Proof. rewrite Nat.add_comm. reflexivity. Qed.

Lemma pagination_whole_window dd window ids :
  (forall body, audit_api dd body = audit_log window body) ->
  has_ids window ids ->
  forall fuel token acc w,
    length (drop (offset_of token) window) < 10 * fuel ->
    (Dashboard.pagination dd fuel acc token w).1
      = Returned (acc ++ drop (offset_of token) ids).
Proof.
  intros Hlog Hids. induction fuel as [|fuel IH]; intros token acc w Hfuel; [lia|].
  rewrite pagination_step, Hlog, audit_log_page. cbn [data].
  rewrite (comprehension_asset_ids _ (take 10 (drop (offset_of token) ids)))
    by now apply has_ids_take, has_ids_drop.
  pose proof (Forall2_length _ _ _ Hids) as Hlen.
  destruct (10 <? length (drop (offset_of token) window))%nat eqn:Hmore.
  - rewrite carried_cursor_page.
    apply Nat.ltb_lt in Hmore.
    rewrite IH; cbn [offset_of]; rewrite token_of_length.
    + rewrite <- app_assoc. f_equal. f_equal.
      rewrite <- (take_drop 10 (drop (offset_of token) ids)) at 2.
      now rewrite drop_drop.
    + rewrite <- drop_drop, length_drop.
      lia.
  - apply Nat.ltb_ge in Hmore. cbn.
    rewrite take_ge; [reflexivity|].
    rewrite length_drop in Hmore. rewrite length_drop. lia.
Qed.

(** Against the synthetic audit log the dashboard Change Detector returns
    the ids of the whole window, however many pages that takes. *)
Lemma dashboards_whole_window dd window ids fuel w :
  (forall body, audit_api dd body = audit_log window body) ->
  has_ids window ids ->
  length window < 10 * fuel ->
  (Dashboard.get_dashboards_created_last_minute dd fuel w).1 = Returned ids.
Proof.
  intros Hlog Hids Hfuel.
  unfold Dashboard.get_dashboards_created_last_minute.
  now rewrite (pagination_whole_window dd window ids Hlog Hids).
Qed.

(** ** Orchestrators *)

Lemma get_dashboard_creator_user_id_run dd dashboard_id w :
  Dashboard.get_dashboard_creator_user_id dd dashboard_id w =
    match audit_api dd (Dashboard.creator_request dashboard_id) with
    | Ok response =>
        (Returned match data response with
                  | event :: _ => default ∅ (attributes event !! "user") !! "id"
                  | [] => None
                  end,
         called (SearchAuditLogs (Dashboard.creator_request dashboard_id)) w)
    | Fails e =>
        (Raised e, called (SearchAuditLogs (Dashboard.creator_request dashboard_id)) w)
    end.
Proof.
  unfold Dashboard.get_dashboard_creator_user_id, bind.
  rewrite search_audit_logs_run.
  destruct (audit_api dd _) as [response|e]; [|reflexivity].
  now destruct (data response).
Qed.

Lemma get_dashboard_creator_user_id_world dd dashboard_id w r w1 :
  Dashboard.get_dashboard_creator_user_id dd dashboard_id w = (r, w1) ->
  w1 = called (SearchAuditLogs (Dashboard.creator_request dashboard_id)) w.
Proof.
  rewrite get_dashboard_creator_user_id_run.
  destruct (audit_api dd _); now intros [= _ <-].
Qed.

Lemma get_team_uuid_by_user_id_world dd user_id w r w2 :
  Dashboard.get_team_uuid_by_user_id dd user_id w = (r, w2) ->
  calls w2 = calls w ++ [GetUserMemberships user_id] /\ policies w2 = policies w.
Proof.
  rewrite get_team_uuid_by_user_id_run.
  destruct (user_memberships dd user_id) as [[|team rest]|e];
    intros [= _ <-]; split; reflexivity.
Qed.

Lemma get_team_uuid_by_name_world dd team_name w r w2 :
  Monitor.get_team_uuid_by_name dd team_name w = (r, w2) ->
  calls w2 = calls w ++ [ListTeams team_name] /\ policies w2 = policies w.
Proof.
  rewrite get_team_uuid_by_name_run.
  destruct (teams dd team_name) as [[|team rest]|e];
    intros [= _ <-]; split; reflexivity.
Qed.

Lemma comprehension_tags_pure ts w :
  exists r, comprehension Monitor.tag_entry ts w = (r, w) /\ r <> OutOfFuel.
Proof.
  destruct (forallb has_colon ts) eqn:Hall.
  - rewrite forallb_forall in Hall. eexists. split.
    + apply comprehension_tags_ok. intros t Ht. apply Hall.
      now apply list_elem_of_In.
    + discriminate.
  - eexists. split.
    + apply comprehension_tags_index_error. now apply forallb_false.
    + discriminate.
Qed.

Lemma get_monitor_team_returned dd monitor_id w team_name w1 :
  Monitor.get_monitor_team dd monitor_id w = (Returned team_name, w1) ->
  exists n, int_literal monitor_id = Some n /\ w1 = called (GetMonitor n) w.
Proof.
  unfold Monitor.get_monitor_team, int.
  destruct (int_literal monitor_id) as [n|]; [|discriminate].
  unfold bind at 1, ret at 1. unfold bind at 1. rewrite get_monitor_run.
  destruct (monitors dd n) as [response|e]; [|discriminate].
  unfold bind.
  destruct (comprehension_tags_pure (tags response) (called (GetMonitor n) w))
    as (r & -> & _).
  destruct r as [entries|e|]; [|discriminate|discriminate].
  unfold subscript. destruct (_ !! "team"); [|discriminate].
  intros [= _ <-]. now exists n.
Qed.

Lemma for_each_cons_returned {A} (body : A -> Py unit) x l w w' :
  body x w = (Returned tt, w') ->
  for_each (x :: l) body w = for_each l body w'.
Proof. intros H. cbn [for_each]. unfold bind. now rewrite H. Qed.

Lemma for_each_cons_raised {A} (body : A -> Py unit) x l w e w' :
  body x w = (Raised e, w') ->
  for_each (x :: l) body w = (Raised e, w').
Proof. intros H. cbn [for_each]. unfold bind. now rewrite H. Qed.

(** The dashboard loop body, case by case. *)
Lemma dashboard_owner_falsy dd dashboard_id w u w1 :
  Dashboard.get_dashboard_creator_user_id dd dashboard_id w = (Returned u, w1) ->
  truthy u = false ->
  Dashboard.guarded dd dashboard_id w =
    (Returned tt,
     printed [Lit "⚠️ No user found for dashboard "; Val dashboard_id;
              Lit ". Skipping."] w1).
Proof.
  intros Hu Hfalsy. unfold Dashboard.guarded, Dashboard.process.
  apply try_returned. rewrite (bind_returned _ _ _ _ _ Hu), Hfalsy.
  reflexivity.
Qed.

Lemma dashboard_team_falsy dd dashboard_id w uid w1 t w2 :
  Dashboard.get_dashboard_creator_user_id dd dashboard_id w
    = (Returned (Some uid), w1) ->
  truthy (Some uid) = true ->
  Dashboard.get_team_uuid_by_user_id dd uid w1 = (Returned t, w2) ->
  truthy t = false ->
  Dashboard.guarded dd dashboard_id w =
    (Returned tt,
     printed [Lit "⚠️ No team UUID found for user "; Val uid;
              Lit ". Skipping dashboard "; Val dashboard_id; Lit "."] w2).
Proof.
  intros Hu Huid Ht Hfalsy. unfold Dashboard.guarded, Dashboard.process.
  apply try_returned. rewrite (bind_returned _ _ _ _ _ Hu), Huid.
  cbn [negb str_of default]. rewrite (bind_returned _ _ _ _ _ Ht), Hfalsy.
  reflexivity.
Qed.

Lemma monitor_team_falsy dd monitor_id w team_name w1 t w2 :
  Monitor.get_monitor_team dd monitor_id w = (Returned team_name, w1) ->
  Monitor.get_team_uuid_by_name dd team_name w1 = (Returned t, w2) ->
  truthy t = false ->
  Monitor.process dd monitor_id w =
    (Returned tt,
     printed [Lit "⚠️ Team UUID not found for monitor ID: "; Val monitor_id] w2).
Proof.
  intros Hname Ht Hfalsy. unfold Monitor.process.
  rewrite (bind_returned _ _ _ _ _ Hname), (bind_returned _ _ _ _ _ Ht), Hfalsy.
  reflexivity.
Qed.

(** C7. In the dashboard orchestrator, when the Owner Resolver yields
    [None] (or any falsy value) for a resource id, the iteration makes no
    call besides the resolver's own audit search: no membership listing,
    no policy write; it prints the skip line and the loop goes on with the
    next id.  When Team Identity Lookup yields [None], in either
    orchestrator, the iteration makes no policy write: its calls are the
    resolver's and the lookup's only, and the loop goes on.  (The monitor
    Owner Resolver returns a string or raises; it has no [None] result.) *)
Theorem skipped_resources_are_not_written (dd : Datadog) :
  (forall dashboard_id rest w u w1,
     Dashboard.get_dashboard_creator_user_id dd dashboard_id w = (Returned u, w1) ->
     truthy u = false ->
     exists w',
       Dashboard.guarded dd dashboard_id w = (Returned tt, w')
       /\ calls w' = calls w
                     ++ [SearchAuditLogs (Dashboard.creator_request dashboard_id)]
       /\ policies w' = policies w
       /\ for_each (dashboard_id :: rest) (Dashboard.guarded dd) w
          = for_each rest (Dashboard.guarded dd) w')
  /\
  (forall dashboard_id rest w user_id w1 t w2,
     Dashboard.get_dashboard_creator_user_id dd dashboard_id w
       = (Returned (Some user_id), w1) ->
     truthy (Some user_id) = true ->
     Dashboard.get_team_uuid_by_user_id dd user_id w1 = (Returned t, w2) ->
     truthy t = false ->
     exists w',
       Dashboard.guarded dd dashboard_id w = (Returned tt, w')
       /\ calls w' = calls w
                     ++ [SearchAuditLogs (Dashboard.creator_request dashboard_id);
                         GetUserMemberships user_id]
       /\ policies w' = policies w
       /\ for_each (dashboard_id :: rest) (Dashboard.guarded dd) w
          = for_each rest (Dashboard.guarded dd) w')
  /\
  (forall monitor_id rest w team_name w1 t w2,
     Monitor.get_monitor_team dd monitor_id w = (Returned team_name, w1) ->
     Monitor.get_team_uuid_by_name dd team_name w1 = (Returned t, w2) ->
     truthy t = false ->
     exists w' n,
       Monitor.process dd monitor_id w = (Returned tt, w')
       /\ int_literal monitor_id = Some n
       /\ calls w' = calls w ++ [GetMonitor n; ListTeams team_name]
       /\ policies w' = policies w
       /\ for_each (monitor_id :: rest) (Monitor.process dd) w
          = for_each rest (Monitor.process dd) w').
Proof.
  split; [|split].
  - intros dashboard_id rest w u w1 Hu Hfalsy.
    pose proof (dashboard_owner_falsy dd dashboard_id w u w1 Hu Hfalsy) as Hrun.
    apply get_dashboard_creator_user_id_world in Hu as ->.
    eexists. split; [exact Hrun|].
    split; [reflexivity|]. split; [reflexivity|].
    now apply for_each_cons_returned.
  - intros dashboard_id rest w user_id w1 t w2 Hu Huid Ht Hfalsy.
    pose proof (dashboard_team_falsy dd dashboard_id w user_id w1 t w2
                  Hu Huid Ht Hfalsy) as Hrun.
    apply get_dashboard_creator_user_id_world in Hu as ->.
    apply get_team_uuid_by_user_id_world in Ht as [Hcalls Hpol].
    eexists. split; [exact Hrun|].
    cbn [printed calls policies]. rewrite Hcalls, Hpol.
    cbn [called calls policies]. rewrite <- app_assoc.
    split; [reflexivity|]. split; [reflexivity|].
    now apply for_each_cons_returned.
  - intros monitor_id rest w team_name w1 t w2 Hname Ht Hfalsy.
    pose proof (monitor_team_falsy dd monitor_id w team_name w1 t w2
                  Hname Ht Hfalsy) as Hrun.
    apply get_monitor_team_returned in Hname as (n & Hint & ->).
    apply get_team_uuid_by_name_world in Ht as [Hcalls Hpol].
    eexists. exists n. split; [exact Hrun|]. split; [exact Hint|].
    cbn [printed calls policies]. rewrite Hcalls, Hpol.
    cbn [called calls policies]. rewrite <- app_assoc.
    split; [reflexivity|]. split; [reflexivity|].
    now apply for_each_cons_returned.
Qed.

(** *** Failures inside a batch *)

(** One guarded dashboard iteration always ends normally, and starts with
    the creator search for its id. *)
Lemma dashboard_guarded_returns dd dashboard_id w :
  exists w' more,
    Dashboard.guarded dd dashboard_id w = (Returned tt, w')
    /\ calls w' = calls w
                  ++ SearchAuditLogs (Dashboard.creator_request dashboard_id) :: more.
Proof.
  unfold Dashboard.guarded, try_except, Dashboard.process.
  unfold bind at 1. rewrite get_dashboard_creator_user_id_run.
  destruct (audit_api dd _) as [response|e].
  2:{ eexists _, []. split; reflexivity. }
  destruct (truthy _) eqn:Hu; cbn [negb].
  2:{ eexists _, []. split; reflexivity. }
  unfold bind at 1. rewrite get_team_uuid_by_user_id_run.
  unfold Dashboard.set_dashboard_permissions.
  destruct (user_memberships dd _) as [[|team teams]|e].
  - eexists _, [_]. split; [reflexivity|].
    cbn [printed called calls]. now rewrite <- app_assoc.
  - destruct (truthy (Some (id team))) eqn:Ht; cbn [negb].
    + unfold bind at 1. rewrite update_restriction_policy_run.
      destruct (policy_rejection dd _ _) as [e|].
      * eexists _, [_; _]. split; [reflexivity|].
        cbn [printed called calls]. now rewrite <- !app_assoc.
      * eexists _, [_; _]. split; [reflexivity|].
        cbn [printed stored called calls]. now rewrite <- !app_assoc.
    + eexists _, [_]. split; [reflexivity|].
      cbn [printed called calls]. now rewrite <- app_assoc.
  - eexists _, [_]. split; [reflexivity|].
    cbn [printed called calls]. now rewrite <- app_assoc.
Qed.

(** The dashboard orchestrator: an exception in one iteration is printed
    and the loop goes on with the next id. *)
Lemma dashboard_failure_is_isolated dd R1 rest w e w1 :
  Dashboard.process dd R1 w = (Raised e, w1) ->
  for_each (R1 :: rest) (Dashboard.guarded dd) w =
    for_each rest (Dashboard.guarded dd)
      (printed [Lit "❌ Failed to process dashboard "; Val R1; Lit ": "; Err e] w1).
Proof.
  intros Hraise. apply for_each_cons_returned.
  unfold Dashboard.guarded. now rewrite (try_raised _ _ _ _ _ Hraise).
Qed.

(** Every id of a dashboard batch gets its iteration, whatever happens in
    the others. *)
Lemma dashboard_batch_complete dd dashboard_ids w :
  exists w' more,
    for_each dashboard_ids (Dashboard.guarded dd) w = (Returned tt, w')
    /\ calls w' = calls w ++ more
    /\ Forall (fun dashboard_id =>
                 SearchAuditLogs (Dashboard.creator_request dashboard_id) ∈ more)
              dashboard_ids.
Proof.
  revert w. induction dashboard_ids as [|R rest IH]; intros w.
  - exists w, []. split; [reflexivity|]. split; [now rewrite app_nil_r | constructor].
  - destruct (dashboard_guarded_returns dd R w) as (w1 & more1 & Hrun & Hcalls).
    destruct (IH w1) as (w' & more & Hrest & Hcalls' & Hall).
    exists w', (SearchAuditLogs (Dashboard.creator_request R) :: more1 ++ more).
    split; [|split].
    + now rewrite (for_each_cons_returned _ _ _ _ _ Hrun).
    + rewrite Hcalls', Hcalls, <- app_assoc. reflexivity.
    + constructor; [left|].
      eapply Forall_impl; [exact Hall|].
      intros R' HR'. cbn beta. right. apply elem_of_app. now right.
Qed.

(** The monitor orchestrator: an exception in one iteration leaves the
    loop; the rest of the batch is not touched and the top-level handler
    prints the exception. *)
Lemma monitor_failure_aborts_batch dd R1 rest w w0 e w1 :
  Monitor.get_monitors_created_last_minute dd w = (Returned (R1 :: rest), w0) ->
  Monitor.process dd R1 w0 = (Raised e, w1) ->
  Monitor.lambda_handler dd w =
    (Returned tt, printed [Lit "🚨 An error occurred: "; Err e] w1).
Proof.
  intros Hids Hraise. unfold Monitor.lambda_handler.
  erewrite try_raised; [reflexivity|].
  rewrite (bind_returned _ _ _ _ _ Hids). cbn [truthy_list].
  now apply for_each_cons_raised.
Qed.

(** C1. The monitor orchestrator does not isolate failures.  With two
    monitors in the batch and a policy service that rejects the write for
    the first, the exception leaves the loop: the top-level handler prints
    it, and the second monitor is never fetched, looked up or written,
    although on its own it is processed without error.  The dashboard
    orchestrator, given the same services, prints the failure of the first
    dashboard and goes on to write the policy of the second. *)
Theorem monitor_batch_is_not_isolated :
  let monitor_run := Monitor.lambda_handler first_write_rejected initial_world in
  let second_alone := Monitor.process first_write_rejected "2" initial_world in
  let dashboard_run := Dashboard.lambda_handler first_write_rejected 1 initial_world in
  monitor_run.1 = Returned tt
  /\ calls monitor_run.2 =
       [ SearchAuditLogs Monitor.page_request;
         GetMonitor 1;
         ListTeams "a";
         UpdateRestrictionPolicy "monitor:1" (Monitor.policy_body "team-a" "1") ]
  /\ stdout monitor_run.2 =
       [ [Lit "🚨 An error occurred: ";
          Err (ApiException 500 "Internal Server Error")] ]
  /\ policies monitor_run.2 !! "monitor:2" = None
  /\ second_alone.1 = Returned tt
  /\ policies second_alone.2 !! "monitor:2"
     = Some (policy_data (Monitor.policy_body "team-a" "2"))
  /\ dashboard_run.1 = Returned tt
  /\ stdout dashboard_run.2 =
       [ [Lit "❌ Failed to process dashboard "; Val "1"; Lit ": ";
          Err (ApiException 500 "Internal Server Error")];
         [Lit "✅ Permissions set for dashboard ID: "; Val "2"] ]
  /\ policies dashboard_run.2 !! "dashboard:2"
     = Some (policy_data (Dashboard.policy_body "team-a" "2")).
Proof. cbv zeta. repeat apply conj; vm_compute; reflexivity. Qed.

(** The example of section 8: a policy is written for [dash-1] only, and
    one skip line is printed for [dash-2]. *)
Example section8_example :
  let run := Dashboard.lambda_handler section8 1 initial_world in
  run.1 = Returned tt
  /\ calls run.2 =
       [ SearchAuditLogs (Dashboard.page_request None);
         SearchAuditLogs (Dashboard.creator_request "dash-1");
         GetUserMemberships "u1";
         UpdateRestrictionPolicy "dashboard:dash-1" (Dashboard.policy_body "t1" "dash-1");
         SearchAuditLogs (Dashboard.creator_request "dash-2");
         GetUserMemberships "u2" ]
  /\ stdout run.2 =
       [ [Lit "✅ Permissions set for dashboard ID: "; Val "dash-1"];
         [Lit "⚠️ No team UUID found for user "; Val "u2";
          Lit ". Skipping dashboard "; Val "dash-2"; Lit "."] ].
Proof. cbv zeta. repeat apply conj; vm_compute; reflexivity. Qed.

(** ** The theorems at concrete services *)

Lemma dashboards_all_pages_witness :
  linked two_pages None [first_page; second_page]
  /\ (Dashboard.get_dashboards_created_last_minute two_pages 2 initial_world).1
     = Returned ["a1"; "a2"; "b1"]
  /\ length (calls (Dashboard.get_dashboards_created_last_minute
                      two_pages 2 initial_world).2) = 2.
Proof.
  assert (Hlinked : linked two_pages None [first_page; second_page]).
  { eapply linked_next; [reflexivity | reflexivity |].
    apply linked_last; reflexivity. }
  split; [exact Hlinked|].
  destruct (dashboards_all_pages two_pages [first_page; second_page]
              [["a1"; "a2"]; ["b1"]] 2 initial_world Hlinked) as [Hrun _].
  - repeat constructor.
  - repeat constructor.
  - rewrite Hrun. split; reflexivity.
Defined.

Lemma get_monitor_team_tags_witness :
  (Monitor.get_monitor_team section8 "43" initial_world).1 = Raised IndexError
  /\ (Monitor.get_monitor_team section8 "42" initial_world).1 = Returned "core".
Proof.
  split.
  - destruct (get_monitor_team_tags section8 "43" 43
                ["env:prod"; "oops"; "team:a"] initial_world eq_refl eq_refl)
      as (Hindex & _).
    apply Hindex. apply Exists_cons_tl, Exists_cons_hd. reflexivity.
  - destruct (get_monitor_team_tags section8 "42" 42
                ["env:prod"; "team:a:b"; "service:web"; "team:core:x"; "tier:1"]
                initial_world eq_refl eq_refl)
      as (_ & _ & Hlast & _).
    apply (Hlast ["env:prod"; "team:a:b"; "service:web"] "team:core:x" ["tier:1"]).
    + reflexivity.
    + repeat constructor.
    + reflexivity.
    + repeat constructor. intros Hkey. vm_compute in Hkey. discriminate.
Defined.

Lemma skipped_resources_witness :
  (exists w',
     Dashboard.guarded section8 "dash-3" initial_world = (Returned tt, w')
     /\ calls w' = [SearchAuditLogs (Dashboard.creator_request "dash-3")])
  /\
  (exists w',
     Dashboard.guarded section8 "dash-2" initial_world = (Returned tt, w')
     /\ calls w' = [SearchAuditLogs (Dashboard.creator_request "dash-2");
                    GetUserMemberships "u2"])
  /\
  (exists w',
     Monitor.process section8 "7" initial_world = (Returned tt, w')
     /\ calls w' = [GetMonitor 7; ListTeams "ghost"]).
Proof.
  destruct (skipped_resources_are_not_written section8) as (Howner & Hteam & Hmonitor).
  split; [|split].
  - destruct (Howner "dash-3" [] initial_world None
                (Dashboard.get_dashboard_creator_user_id section8 "dash-3"
                   initial_world).2 eq_refl eq_refl)
      as (w' & Hrun & Hcalls & _).
    exists w'. split; [exact Hrun | exact Hcalls].
  - destruct (Hteam "dash-2" [] initial_world "u2"
                (Dashboard.get_dashboard_creator_user_id section8 "dash-2"
                   initial_world).2
                None
                (Dashboard.get_team_uuid_by_user_id section8 "u2"
                   (Dashboard.get_dashboard_creator_user_id section8 "dash-2"
                      initial_world).2).2
                eq_refl eq_refl eq_refl eq_refl)
      as (w' & Hrun & Hcalls & _).
    exists w'. split; [exact Hrun | exact Hcalls].
  - destruct (Hmonitor "7" [] initial_world "ghost"
                (Monitor.get_monitor_team section8 "7" initial_world).2
                None
                (Monitor.get_team_uuid_by_name section8 "ghost"
                   (Monitor.get_monitor_team section8 "7" initial_world).2).2
                eq_refl eq_refl eq_refl)
      as (w' & n & Hrun & Hint & Hcalls & _).
    injection Hint as <-.
    exists w'. split; [exact Hrun | exact Hcalls].
Defined.

Lemma monitors_single_page_witness :
  (Monitor.get_monitors_created_last_minute
     (synthetic (map anonymous_event twelve_ids)) initial_world).1
  = Returned ["m1"; "m2"; "m3"; "m4"; "m5"; "m6"; "m7"; "m8"; "m9"; "m10"]
  /\ drop 10 twelve_ids <> [].
Proof.
  destruct (monitors_single_page (synthetic (map anonymous_event twelve_ids))
              initial_world) as (_ & _ & _ & _ & _ & Hwindow).
  destruct (Hwindow (map anonymous_event twelve_ids) twelve_ids eq_refl)
    as (Hrun & _ & Hrest).
  - repeat constructor.
  - split; [exact Hrun|]. apply Hrest. repeat constructor.
Defined.

(** The dashboard Change Detector walks the same twelve events to the
    end. *)
Example dashboards_twelve :
  (Dashboard.get_dashboards_created_last_minute
     (synthetic (map anonymous_event twelve_ids)) 2 initial_world).1
  = Returned twelve_ids.
Proof.
  apply (dashboards_whole_window _ (map anonymous_event twelve_ids)).
  - reflexivity.
  - repeat constructor.
  - cbn. lia.
Qed.

(** * Further properties of the scripts *)

(** ** One iteration, case by case *)

Lemma dashboard_guarded_run dd dashboard_id w :
  Dashboard.guarded dd dashboard_id w =
    let w1 := called (SearchAuditLogs (Dashboard.creator_request dashboard_id)) w in
    match audit_api dd (Dashboard.creator_request dashboard_id) with
    | Fails e =>
        (Returned tt,
         printed [Lit "❌ Failed to process dashboard "; Val dashboard_id;
                  Lit ": "; Err e] w1)
    | Ok response =>
        let user := match data response with
                    | event :: _ => default ∅ (attributes event !! "user") !! "id"
                    | [] => None
                    end in
        if truthy user then
          let w2 := called (GetUserMemberships (str_of user)) w1 in
          let no_team :=
            [Lit "⚠️ No team UUID found for user "; Val (str_of user);
             Lit ". Skipping dashboard "; Val dashboard_id; Lit "."] in
          match user_memberships dd (str_of user) with
          | Fails e =>
              (Returned tt,
               printed no_team
                 (printed [Lit "⚠️ Error fetching team memberships for user ";
                           Val (str_of user); Lit ": "; Err e] w2))
          | Ok [] => (Returned tt, printed no_team w2)
          | Ok (team :: _) =>
              if truthy (Some (id team)) then
                let body := Dashboard.policy_body (id team) dashboard_id in
                let w3 := called (UpdateRestrictionPolicy
                                    ("dashboard:" +:+ dashboard_id) body) w2 in
                match policy_rejection dd ("dashboard:" +:+ dashboard_id) body with
                | Some e =>
                    (Returned tt,
                     printed [Lit "❌ Failed to process dashboard "; Val dashboard_id;
                              Lit ": "; Err e] w3)
                | None =>
                    (Returned tt,
                     printed [Lit "✅ Permissions set for dashboard ID: ";
                              Val dashboard_id]
                       (stored ("dashboard:" +:+ dashboard_id) (policy_data body) w3))
                end
              else (Returned tt, printed no_team w2)
          end
        else
          (Returned tt,
           printed [Lit "⚠️ No user found for dashboard "; Val dashboard_id;
                    Lit ". Skipping."] w1)
    end.
Proof.
  cbv zeta.
  unfold Dashboard.guarded, try_except, Dashboard.process.
  unfold bind at 1. rewrite get_dashboard_creator_user_id_run.
  destruct (audit_api dd _) as [response|e]; [|reflexivity].
  destruct (truthy _) eqn:Hu; cbn [negb]; [|reflexivity].
  unfold bind at 1. rewrite get_team_uuid_by_user_id_run.
  unfold Dashboard.set_dashboard_permissions.
  destruct (user_memberships dd _) as [[|team teams]|e]; [reflexivity| |reflexivity].
  destruct (truthy (Some (id team))) eqn:Ht; cbn [negb]; [|reflexivity].
  unfold bind at 1. cbn [str_of default]. rewrite update_restriction_policy_run.
  now destruct (policy_rejection dd _ _).
Qed.

Lemma get_monitor_team_full_run dd monitor_id w :
  Monitor.get_monitor_team dd monitor_id w =
    match int_literal monitor_id with
    | None => (Raised (ValueError monitor_id), w)
    | Some n =>
        let w1 := called (GetMonitor n) w in
        match monitors dd n with
        | Fails e => (Raised e, w1)
        | Ok monitor =>
            if forallb has_colon (tags monitor) then
              match last_with_key "team" (tags monitor) with
              | Some t => (Returned (between_colons t), w1)
              | None => (Raised (KeyError "team"), w1)
              end
            else (Raised IndexError, w1)
        end
    end.
Proof.
  destruct (int_literal monitor_id) as [n|] eqn:Hint.
  - cbv zeta. destruct (monitors dd n) as [[ts]|e] eqn:Hmon.
    + apply (get_monitor_team_run dd monitor_id n ts w Hint Hmon).
    + unfold Monitor.get_monitor_team, int. rewrite Hint.
      unfold bind at 1, ret at 1. unfold bind at 1.
      now rewrite get_monitor_run, Hmon.
  - unfold Monitor.get_monitor_team, int. now rewrite Hint.
Qed.

Lemma monitor_process_run dd monitor_id w :
  Monitor.process dd monitor_id w =
    match Monitor.get_monitor_team dd monitor_id w with
    | (Returned team_name, w1) =>
        let w2 := called (ListTeams team_name) w1 in
        let not_found :=
          [Lit "⚠️ Team UUID not found for monitor ID: "; Val monitor_id] in
        match teams dd team_name with
        | Fails e =>
            (Returned tt,
             printed not_found
               (printed [Lit "Error fetching team details: "; Err e] w2))
        | Ok [] => (Returned tt, printed not_found w2)
        | Ok (team :: _) =>
            if truthy (Some (id team)) then
              let body := Monitor.policy_body (id team) monitor_id in
              let w3 := called (UpdateRestrictionPolicy
                                  ("monitor:" +:+ monitor_id) body) w2 in
              match policy_rejection dd ("monitor:" +:+ monitor_id) body with
              | Some e => (Raised e, w3)
              | None =>
                  (Returned tt,
                   printed [Lit "✅ Permissions set for monitor ID: "; Val monitor_id]
                     (stored ("monitor:" +:+ monitor_id) (policy_data body) w3))
              end
            else (Returned tt, printed not_found w2)
        end
    | (Raised e, w1) => (Raised e, w1)
    | (OutOfFuel, w1) => (OutOfFuel, w1)
    end.
Proof.
  cbv zeta. unfold Monitor.process. unfold bind at 1.
  destruct (Monitor.get_monitor_team dd monitor_id w) as [[team_name|e|] w1];
    [|reflexivity|reflexivity].
  unfold bind at 1. rewrite get_team_uuid_by_name_run.
  unfold Monitor.set_monitor_permissions.
  destruct (teams dd team_name) as [[|team rest]|e]; [reflexivity| |reflexivity].
  destruct (truthy (Some (id team))) eqn:Ht; [|reflexivity].
  unfold bind at 1. cbn [str_of default]. rewrite update_restriction_policy_run.
  now destruct (policy_rejection dd _ _).
Qed.

(** ** Effects *)

Lemma extended_no_effect w : extended no_effect w = w.
Proof.
  destruct w as [cs ls ps]. unfold extended, no_effect, write_all.
  cbn. now rewrite !app_nil_r.
Qed.

Lemma write_all_app ws1 ws2 store :
  write_all (ws1 ++ ws2) store = write_all ws2 (write_all ws1 store).
Proof. unfold write_all. apply foldl_app. Qed.

Lemma extended_both d1 d2 w :
  extended d2 (extended d1 w) = extended (both d1 d2) w.
Proof.
  unfold extended, both. cbn [calls stdout policies new_calls new_lines writes].
  now rewrite !app_assoc, write_all_app.
Qed.

Lemma write_all_lookup ws store key :
  write_all ws store !! key =
    match written key ws with
    | Some p => Some p
    | None => store !! key
    end.
Proof.
  revert store. induction ws as [|kv ws IH]; intros store; [reflexivity|].
  change (write_all (kv :: ws) store)
    with (write_all ws (<[kv.1 := kv.2]> store)).
  rewrite IH. cbn [written].
  destruct (written key ws); [reflexivity|].
  rewrite lookup_insert. now destruct (decide (kv.1 = key)).
Qed.

Lemma write_all_twice ws store :
  write_all ws (write_all ws store) = write_all ws store.
Proof.
  apply map_eq. intros key. rewrite !write_all_lookup.
  now destruct (written key ws).
Qed.

Lemma written_outside (K : string -> Prop) ws key :
  Forall (fun kv => K kv.1) ws -> ~ K key -> written key ws = None.
Proof.
  induction 1 as [|kv ws Hkv _ IH]; intros Hout; [reflexivity|].
  cbn [written]. rewrite IH by exact Hout.
  destruct (decide (kv.1 = key)) as [<-|]; [contradiction | reflexivity].
Qed.

Section Confined.

Variable K : string -> Prop.

Lemma confined_pure {A} (r : outcome A) :
  confined K (fun w => (r, w)).
Proof.
  exists r, no_effect. split; [constructor|].
  intros w. now rewrite extended_no_effect.
Qed.

Lemma confined_ret {A} (a : A) : confined K (ret a).
Proof. apply confined_pure. Qed.

Lemma confined_raise {A} e : confined K (@raise A e).
Proof. apply confined_pure. Qed.

Lemma confined_bind {A B} (m : Py A) (k : A -> Py B) :
  confined K m -> (forall a, confined K (k a)) -> confined K (bind m k).
Proof.
  intros (r & d & Hd & Hm) Hk. destruct r as [a|e|].
  - destruct (Hk a) as (r' & d' & Hd' & Hka).
    exists r', (both d d'). split.
    + cbn [both writes]. now apply Forall_app.
    + intros w. unfold bind. now rewrite Hm, Hka, extended_both.
  - exists (Raised e), d. split; [exact Hd|].
    intros w. unfold bind. now rewrite Hm.
  - exists OutOfFuel, d. split; [exact Hd|].
    intros w. unfold bind. now rewrite Hm.
Qed.

Lemma confined_try {A} (body : Py A) handler :
  confined K body -> (forall e, confined K (handler e)) ->
  confined K (try_except body handler).
Proof.
  intros (r & d & Hd & Hm) Hh. destruct r as [a|e|].
  - exists (Returned a), d. split; [exact Hd|].
    intros w. unfold try_except. now rewrite Hm.
  - destruct (Hh e) as (r' & d' & Hd' & Hhe).
    exists r', (both d d'). split.
    + cbn [both writes]. now apply Forall_app.
    + intros w. unfold try_except. now rewrite Hm, Hhe, extended_both.
  - exists OutOfFuel, d. split; [exact Hd|].
    intros w. unfold try_except. now rewrite Hm.
Qed.

Lemma confined_print l : confined K (print l).
Proof.
  exists (Returned tt), {| new_calls := []; new_lines := [l]; writes := [] |}.
  split; [constructor|]. intros w. unfold print, extended, write_all. cbn.
  now rewrite app_nil_r.
Qed.

Lemma confined_record_call c : confined K (record_call c).
Proof.
  exists (Returned tt), {| new_calls := [c]; new_lines := []; writes := [] |}.
  split; [constructor|]. intros w. unfold record_call, extended, write_all. cbn.
  now rewrite app_nil_r.
Qed.

Lemma confined_of_answer {A} (a : answer A) : confined K (of_answer a).
Proof. destruct a; [apply confined_ret | apply confined_raise]. Qed.

Lemma confined_search dd body : confined K (search_audit_logs dd body).
Proof.
  apply confined_bind; [apply confined_record_call|].
  intros _. apply confined_of_answer.
Qed.

Lemma confined_update dd resource_id body :
  K resource_id -> confined K (update_restriction_policy dd resource_id body).
Proof.
  intros Hkey. apply confined_bind; [apply confined_record_call|]. intros _.
  destruct (policy_rejection dd resource_id body) as [e|];
    [apply confined_raise|].
  exists (Returned tt),
    {| new_calls := []; new_lines := []; writes := [(resource_id, policy_data body)] |}.
  split; [now repeat constructor|].
  intros w. unfold extended, write_all. cbn. now rewrite !app_nil_r.
Qed.

Lemma confined_comprehension {A B} (f : A -> Py B) l :
  (forall x, confined K (f x)) -> confined K (comprehension f l).
Proof.
  intros Hf. induction l as [|x l IH]; [apply confined_ret|].
  cbn [comprehension]. apply confined_bind; [apply Hf|]. intros y.
  apply confined_bind; [exact IH|]. intros ys. apply confined_ret.
Qed.

Lemma confined_for_each {A} (body : A -> Py unit) (l : list A) :
  (forall x, x ∈ l -> confined K (body x)) -> confined K (for_each l body).
Proof.
  induction l as [|x l IH]; intros Hbody; [apply confined_ret|].
  cbn [for_each]. apply confined_bind; [apply Hbody; left|].
  intros _. apply IH. intros y Hy. apply Hbody. now right.
Qed.

Lemma confined_asset_id event : confined K (asset_id event).
Proof.
  unfold asset_id, subscript.
  destruct (attributes event !! "asset") as [asset|]; [|apply confined_raise].
  apply confined_bind; [apply confined_ret|]. intros a.
  destruct (a !! "id"); [apply confined_ret | apply confined_raise].
Qed.

Lemma confined_next_page_token response :
  confined K (Dashboard.next_page_token_of response).
Proof.
  destruct (paging_of response) as [c| |attribute_name] eqn:Hpaging.
  - exists (Returned (Some c)), no_effect. split; [constructor|].
    intros w. now rewrite next_page_token_run, Hpaging, extended_no_effect.
  - exists (Returned None), no_effect. split; [constructor|].
    intros w. now rewrite next_page_token_run, Hpaging, extended_no_effect.
  - exists (Raised (ApiAttributeError attribute_name)), no_effect.
    split; [constructor|].
    intros w. now rewrite next_page_token_run, Hpaging, extended_no_effect.
Qed.

Lemma confined_pagination dd fuel acc token :
  confined K (Dashboard.pagination dd fuel acc token).
Proof.
  revert acc token. induction fuel as [|fuel IH]; intros acc token.
  - apply (confined_pure OutOfFuel).
  - cbn [Dashboard.pagination].
    apply confined_bind; [apply confined_search|]. intros response.
    apply confined_bind; [apply confined_comprehension, confined_asset_id|].
    intros ids. apply confined_bind; [apply confined_next_page_token|].
    intros next. destruct (negb _); [apply confined_ret | apply IH].
Qed.

Lemma confined_get_monitors dd :
  confined K (Monitor.get_monitors_created_last_minute dd).
Proof.
  unfold Monitor.get_monitors_created_last_minute. cbv zeta.
  apply confined_bind; [apply confined_search|]. intros response.
  apply confined_bind; [apply confined_comprehension, confined_asset_id|].
  intros ids. apply confined_ret.
Qed.

Lemma confined_dashboard_guarded dd dashboard_id :
  K ("dashboard:" +:+ dashboard_id) ->
  confined K (Dashboard.guarded dd dashboard_id).
Proof.
  intros Hkey. unfold Dashboard.guarded, Dashboard.process.
  apply confined_try; [|intros e; apply confined_print].
  apply confined_bind.
  { unfold Dashboard.get_dashboard_creator_user_id.
    apply confined_bind; [apply confined_search|]. intros response.
    destruct (data response); apply confined_ret. }
  intros user. destruct (negb (truthy user)); [apply confined_print|].
  cbv zeta. apply confined_bind.
  { unfold Dashboard.get_team_uuid_by_user_id. apply confined_try.
    - apply confined_bind.
      + apply confined_bind; [apply confined_record_call|].
        intros _. apply confined_of_answer.
      + intros response. destruct response; apply confined_ret.
    - intros e. apply confined_bind; [apply confined_print|].
      intros _. apply confined_ret. }
  intros team. destruct (negb (truthy team)); [apply confined_print|].
  apply confined_bind; [|intros _; apply confined_print].
  unfold Dashboard.set_dashboard_permissions. cbv zeta.
  now apply confined_update.
Qed.

Lemma confined_monitor_process dd monitor_id :
  K ("monitor:" +:+ monitor_id) ->
  confined K (Monitor.process dd monitor_id).
Proof.
  intros Hkey. unfold Monitor.process.
  apply confined_bind.
  { unfold Monitor.get_monitor_team, int.
    apply confined_bind.
    { destruct (int_literal monitor_id); [apply confined_ret | apply confined_raise]. }
    intros n. apply confined_bind.
    { apply confined_bind; [apply confined_record_call|].
      intros _. apply confined_of_answer. }
    intros response. apply confined_bind.
    { apply confined_comprehension. intros item. unfold Monitor.tag_entry, index.
      apply confined_bind.
      { destruct (_ !! 0); [apply confined_ret | apply confined_raise]. }
      intros key. apply confined_bind.
      { destruct (_ !! 1); [apply confined_ret | apply confined_raise]. }
      intros value. apply confined_ret. }
    intros entries. cbv zeta. unfold subscript.
    destruct (_ !! "team"); [apply confined_ret | apply confined_raise]. }
  intros team_name. apply confined_bind.
  { unfold Monitor.get_team_uuid_by_name. apply confined_try.
    - apply confined_bind.
      + apply confined_bind; [apply confined_record_call|].
        intros _. apply confined_of_answer.
      + intros response. destruct response; apply confined_ret.
    - intros e. apply confined_bind; [apply confined_print|].
      intros _. apply confined_ret. }
  intros team. destruct (truthy team); [|apply confined_print].
  apply confined_bind; [|intros _; apply confined_print].
  unfold Monitor.set_monitor_permissions. cbv zeta.
  now apply confined_update.
Qed.

End Confined.

Lemma confined_frame (K : string -> Prop) {A} (m : Py A) w key :
  confined K m -> ~ K key -> policies (m w).2 !! key = policies w !! key.
Proof.
  intros (r & d & Hd & Hm) Hout. rewrite Hm.
  cbn [snd extended policies]. rewrite write_all_lookup.
  now rewrite (written_outside K).
Qed.

Lemma confined_writes_nothing {A} (m : Py A) w :
  confined (fun _ => False) m -> policies (m w).2 = policies w.
Proof.
  intros (r & d & Hd & Hm). rewrite Hm. cbn [snd extended policies].
  destruct (writes d) as [|kv ws]; [reflexivity|].
  now inversion Hd.
Qed.

Lemma confined_dashboard_handler dd fuel :
  confined (fun _ => True) (Dashboard.lambda_handler dd fuel).
Proof.
  unfold Dashboard.lambda_handler.
  apply confined_try; [|intros e; apply confined_print].
  apply confined_bind; [apply confined_pagination|]. intros ids.
  destruct (truthy_list ids); [|apply confined_print].
  apply confined_for_each. intros id _. now apply confined_dashboard_guarded.
Qed.

Lemma confined_monitor_handler dd :
  confined (fun _ => True) (Monitor.lambda_handler dd).
Proof.
  unfold Monitor.lambda_handler.
  apply confined_try; [|intros e; apply confined_print].
  apply confined_bind; [apply confined_get_monitors|]. intros ids.
  destruct (truthy_list ids); [|apply confined_print].
  apply confined_for_each. intros id _. now apply confined_monitor_process.
Qed.

Lemma confined_rerun {A} (m : Py A) w :
  confined (fun _ => True) m ->
  (m (m w).2).1 = (m w).1
  /\ policies (m (m w).2).2 = policies (m w).2
  /\ exists cs ls,
       calls (m w).2 = calls w ++ cs
       /\ calls (m (m w).2).2 = calls w ++ cs ++ cs
       /\ stdout (m w).2 = stdout w ++ ls
       /\ stdout (m (m w).2).2 = stdout w ++ ls ++ ls.
Proof.
  intros (r & d & _ & Hm). rewrite !Hm. cbn [fst snd].
  split; [reflexivity|]. split.
  - cbn [extended policies]. apply write_all_twice.
  - exists (new_calls d), (new_lines d). cbn [extended calls stdout].
    rewrite <- !app_assoc. repeat split.
Qed.

(** ** The orchestrators as a whole *)

(** X15. Running an orchestrator a second time against the same services ends
    the same way and leaves the policy store as the first run left it; the
    second run repeats the calls and the lines of the first. *)
Theorem handlers_rerun_same_policies (dd : Datadog) (fuel : nat) (w : World) :
  (let once := Dashboard.lambda_handler dd fuel w in
   let twice := Dashboard.lambda_handler dd fuel once.2 in
   twice.1 = once.1
   /\ policies twice.2 = policies once.2
   /\ exists cs ls,
        calls once.2 = calls w ++ cs
        /\ calls twice.2 = calls w ++ cs ++ cs
        /\ stdout once.2 = stdout w ++ ls
        /\ stdout twice.2 = stdout w ++ ls ++ ls)
  /\
  (let once := Monitor.lambda_handler dd w in
   let twice := Monitor.lambda_handler dd once.2 in
   twice.1 = once.1
   /\ policies twice.2 = policies once.2
   /\ exists cs ls,
        calls once.2 = calls w ++ cs
        /\ calls twice.2 = calls w ++ cs ++ cs
        /\ stdout once.2 = stdout w ++ ls
        /\ stdout twice.2 = stdout w ++ ls ++ ls).
Proof.
  split; cbv zeta.
  - apply confined_rerun, confined_dashboard_handler.
  - apply confined_rerun, confined_monitor_handler.
Qed.

Lemma try_print_policies (body : Py unit) w key :
  policies (try_except body
              (fun e => print [Lit "🚨 An error occurred: "; Err e]) w).2 !! key
  = policies (body w).2 !! key.
Proof.
  unfold try_except. now destruct (body w) as [[[]|e|] w'].
Qed.

(** X14. An orchestrator writes policies only for the resources of its batch:
    whatever is stored under any other key, for instance under the other
    script's resources, is still there after the run. *)
Theorem handlers_write_only_batch_policies (dd : Datadog) (key : string) :
  (forall fuel w dashboard_ids w0,
     Dashboard.get_dashboards_created_last_minute dd fuel w
       = (Returned dashboard_ids, w0) ->
     (forall dashboard_id,
        dashboard_id ∈ dashboard_ids -> key <> "dashboard:" +:+ dashboard_id) ->
     policies (Dashboard.lambda_handler dd fuel w).2 !! key = policies w !! key)
  /\
  (forall w monitor_ids w0,
     Monitor.get_monitors_created_last_minute dd w = (Returned monitor_ids, w0) ->
     (forall monitor_id,
        monitor_id ∈ monitor_ids -> key <> "monitor:" +:+ monitor_id) ->
     policies (Monitor.lambda_handler dd w).2 !! key = policies w !! key).
Proof.
  split.
  - intros fuel w ids w0 Hget Hkey.
    unfold Dashboard.lambda_handler. rewrite try_print_policies.
    rewrite (bind_returned _ _ _ _ _ Hget).
    assert (Hw0 : policies w0 = policies w).
    { change w0 with (Returned ids, w0).2. rewrite <- Hget.
      apply confined_writes_nothing, confined_pagination. }
    rewrite <- Hw0.
    destruct (truthy_list ids); [|reflexivity].
    apply (confined_frame
             (fun k => exists id, id ∈ ids /\ k = "dashboard:" +:+ id)).
    + apply confined_for_each. intros id Hid.
      apply confined_dashboard_guarded. now exists id.
    + intros (id & Hid & ->). now apply (Hkey id).
  - intros w ids w0 Hget Hkey.
    unfold Monitor.lambda_handler. rewrite try_print_policies.
    rewrite (bind_returned _ _ _ _ _ Hget).
    assert (Hw0 : policies w0 = policies w).
    { change w0 with (Returned ids, w0).2. rewrite <- Hget.
      apply confined_writes_nothing, confined_get_monitors. }
    rewrite <- Hw0.
    destruct (truthy_list ids); [|reflexivity].
    apply (confined_frame
             (fun k => exists id, id ∈ ids /\ k = "monitor:" +:+ id)).
    + apply confined_for_each. intros id Hid.
      apply confined_monitor_process. now exists id.
    + intros (id & Hid & ->). now apply (Hkey id).
Qed.

Lemma monitor_process_ends dd monitor_id w :
  (Monitor.process dd monitor_id w).1 <> OutOfFuel.
Proof.
  rewrite monitor_process_run, get_monitor_team_full_run. cbv zeta.
  destruct (int_literal monitor_id) as [n|]; [|discriminate].
  destruct (monitors dd n) as [monitor|e]; [|discriminate].
  destruct (forallb has_colon (tags monitor)); [|discriminate].
  destruct (last_with_key "team" (tags monitor)) as [t|]; [|discriminate].
  destruct (teams dd (between_colons t)) as [[|team rest]|e];
    [discriminate| |discriminate].
  destruct (truthy (Some (id team))); [|discriminate].
  destruct (policy_rejection dd _ _); discriminate.
Qed.

Lemma monitor_batch_ends dd monitor_ids w :
  (for_each monitor_ids (Monitor.process dd) w).1 <> OutOfFuel.
Proof.
  revert w. induction monitor_ids as [|R rest IH]; intros w; [discriminate|].
  cbn [for_each]. unfold bind.
  pose proof (monitor_process_ends dd R w) as Hends.
  destruct (Monitor.process dd R w) as [[[]|e|] w1];
    [apply IH | discriminate | contradiction].
Qed.

(** X2. Neither orchestrator lets an exception out: the monitor one always
    ends normally, and so does the dashboard one whenever its pagination
    loop ends. *)
Theorem handlers_end_without_raising (dd : Datadog) :
  (forall fuel w,
     (Dashboard.lambda_handler dd fuel w).1 =
       match (Dashboard.get_dashboards_created_last_minute dd fuel w).1 with
       | OutOfFuel => OutOfFuel
       | _ => Returned tt
       end)
  /\ (forall w, (Monitor.lambda_handler dd w).1 = Returned tt).
Proof.
  split.
  - intros fuel w. unfold Dashboard.lambda_handler, try_except, bind.
    destruct (Dashboard.get_dashboards_created_last_minute dd fuel w)
      as [[ids|e|] w0]; [|reflexivity|reflexivity].
    destruct (truthy_list ids); [|reflexivity].
    destruct (dashboard_batch_complete dd ids w0) as (w' & more & -> & _).
    reflexivity.
  - intros w. unfold Monitor.lambda_handler, try_except, bind.
    rewrite get_monitors_run.
    destruct (audit_api dd Monitor.page_request) as [response|e]; [|reflexivity].
    destruct (comprehension_asset_id_pure (data response)
                (called (SearchAuditLogs Monitor.page_request) w))
      as (r & -> & Hr).
    destruct r as [ids|e|]; [|reflexivity|contradiction].
    destruct (truthy_list ids); [|reflexivity].
    pose proof (monitor_batch_ends dd ids
                  (called (SearchAuditLogs Monitor.page_request) w)) as Hends.
    destruct (for_each ids (Monitor.process dd) _) as [[[]|e|] w'];
      [reflexivity | reflexivity | contradiction].
Qed.

Lemma empty_pages_have_no_ids (pages : list AuditLogsEventsResponse) :
  Forall (fun response => data response = []) pages ->
  Forall2 (fun response ids => has_ids (data response) ids) pages
          (map (fun _ => []) pages)
  /\ concat (map (fun _ : AuditLogsEventsResponse => @nil string) pages) = [].
Proof.
  induction 1 as [|response pages Hempty _ [IH1 IH2]].
  - split; [constructor | reflexivity].
  - split; [|exact IH2].
    constructor; [|exact IH1]. rewrite Hempty. constructor.
Qed.

(** X3. When the audit log has no matching event, an orchestrator prints its
    "nothing was created" line and calls no other service: its only calls
    are the Change Detector's searches.  For the dashboards the empty
    pages are [linked]: the last one ends the walk with a null or empty
    cursor. *)
Theorem empty_batch_stops_pipeline (dd : Datadog) :
  (forall pages fuel w,
     linked dd None pages ->
     Forall (fun response => data response = []) pages ->
     length pages <= fuel ->
     Dashboard.lambda_handler dd fuel w =
       (Returned tt,
        printed [Lit "ℹ️ No dashboards were created in the last minute."]
          (searched (tokens_sent None pages) w)))
  /\
  (forall response w,
     audit_api dd Monitor.page_request = Ok response ->
     data response = [] ->
     Monitor.lambda_handler dd w =
       (Returned tt,
        printed [Lit "ℹ️ No monitors were created in the last minute."]
          (called (SearchAuditLogs Monitor.page_request) w))).
Proof.
  split.
  - intros pages fuel w Hlinked Hempty Hfuel.
    destruct (empty_pages_have_no_ids pages Hempty) as [Hids Hconcat].
    unfold Dashboard.lambda_handler, try_except, bind,
      Dashboard.get_dashboards_created_last_minute.
    rewrite (pagination_linked dd None pages Hlinked _ fuel [] w Hids Hfuel).
    now rewrite Hconcat.
  - intros response w Hresponse Hempty.
    unfold Monitor.lambda_handler, try_except, bind.
    now rewrite get_monitors_run, Hresponse, Hempty.
Qed.

Lemma pagination_walk_fails dd start pages next :
  walk dd start pages next ->
  forall idss e fuel acc w,
    Forall2 (fun response ids => has_ids (data response) ids) pages idss ->
    audit_api dd (Dashboard.page_request next) = Fails e ->
    length pages < fuel ->
    Dashboard.pagination dd fuel acc start w =
      (Raised e, searched (start :: map carried_cursor pages) w).
Proof.
  induction 1 as [start|start response c rest next Hresp Hnext Hrest IH];
    intros idss e fuel acc w Hids Hfails Hfuel;
    (destruct fuel as [|fuel]; [cbn in Hfuel; lia|]);
    rewrite pagination_step.
  - now rewrite Hfails.
  - apply Forall2_cons_inv_l in Hids as (ids & idss' & Hhas & Hids' & ->).
    rewrite Hresp, (comprehension_asset_ids _ ids _ Hhas), Hnext.
    rewrite (IH idss' e fuel (acc ++ ids) _ Hids' Hfails) by (cbn in Hfuel; lia).
    rewrite searched_called. cbn [map]. now rewrite Hnext.
Qed.

(** X4. A failing audit search ends the run: the orchestrator prints the
    exception and calls nothing else.  For dashboards this holds for a
    failure on any page: the ids collected from the pages before it are
    dropped, and no dashboard of the window is processed. *)
Theorem change_detector_failure_stops_pipeline (dd : Datadog) :
  (forall pages idss next e fuel w,
     walk dd None pages next ->
     Forall2 (fun response ids => has_ids (data response) ids) pages idss ->
     audit_api dd (Dashboard.page_request next) = Fails e ->
     length pages < fuel ->
     Dashboard.lambda_handler dd fuel w =
       (Returned tt,
        printed [Lit "🚨 An error occurred: "; Err e]
          (searched (None :: map carried_cursor pages) w)))
  /\
  (forall e w,
     audit_api dd Monitor.page_request = Fails e ->
     Monitor.lambda_handler dd w =
       (Returned tt,
        printed [Lit "🚨 An error occurred: "; Err e]
          (called (SearchAuditLogs Monitor.page_request) w))).
Proof.
  split.
  - intros pages idss next e fuel w Hwalk Hids Hfails Hfuel.
    unfold Dashboard.lambda_handler, try_except, bind,
      Dashboard.get_dashboards_created_last_minute.
    now rewrite (pagination_walk_fails dd None pages next Hwalk
                   idss e fuel [] w Hids Hfails Hfuel).
  - intros e w Hfails.
    unfold Monitor.lambda_handler, try_except, bind.
    now rewrite get_monitors_run, Hfails.
Qed.

Lemma comprehension_missing_asset events w :
  Exists (fun event => event_asset_id event = None) events ->
  exists key,
    (key = "asset" \/ key = "id")
    /\ comprehension asset_id events w = (Raised (KeyError key), w).
Proof.
  induction events as [|event events IH]; intros Hex; [inversion Hex|].
  cbn [comprehension]. unfold bind at 1. rewrite asset_id_run.
  unfold event_asset_id in Hex.
  destruct (attributes event !! "asset") as [asset|] eqn:Hasset.
  2:{ exists "asset". split; [now left | reflexivity]. }
  destruct (asset !! "id") as [i|] eqn:Hid.
  2:{ exists "id". split; [now right | reflexivity]. }
  destruct IH as (key & Hkey & Hrun).
  { inversion Hex as [? ? Hhead|? ? Htail]; subst; [|exact Htail].
    rewrite Hasset in Hhead. cbn in Hhead. congruence. }
  exists key. split; [exact Hkey|]. unfold bind at 1. now rewrite Hrun.
Qed.

(** X5. One creation event without an asset id costs the whole batch: the
    Change Detector raises [KeyError], the orchestrator prints it, and no
    resource of that response is processed, the well-formed ones
    included. *)
Theorem malformed_event_drops_batch (dd : Datadog) :
  (forall response fuel w,
     audit_api dd (Dashboard.page_request None) = Ok response ->
     Exists (fun event => event_asset_id event = None) (data response) ->
     0 < fuel ->
     exists key,
       (key = "asset" \/ key = "id")
       /\ Dashboard.lambda_handler dd fuel w =
            (Returned tt,
             printed [Lit "🚨 An error occurred: "; Err (KeyError key)]
               (called (SearchAuditLogs (Dashboard.page_request None)) w)))
  /\
  (forall response w,
     audit_api dd Monitor.page_request = Ok response ->
     Exists (fun event => event_asset_id event = None) (data response) ->
     exists key,
       (key = "asset" \/ key = "id")
       /\ Monitor.lambda_handler dd w =
            (Returned tt,
             printed [Lit "🚨 An error occurred: "; Err (KeyError key)]
               (called (SearchAuditLogs Monitor.page_request) w))).
Proof.
  split.
  - intros response fuel w Hresponse Hex Hfuel.
    destruct fuel as [|fuel]; [lia|].
    destruct (comprehension_missing_asset (data response)
                (called (SearchAuditLogs (Dashboard.page_request None)) w) Hex)
      as (key & Hkey & Hrun).
    exists key. split; [exact Hkey|].
    unfold Dashboard.lambda_handler, try_except, bind,
      Dashboard.get_dashboards_created_last_minute.
    now rewrite pagination_step, Hresponse, Hrun.
  - intros response w Hresponse Hex.
    destruct (comprehension_missing_asset (data response)
                (called (SearchAuditLogs Monitor.page_request) w) Hex)
      as (key & Hkey & Hrun).
    exists key. split; [exact Hkey|].
    unfold Monitor.lambda_handler, try_except, bind.
    now rewrite get_monitors_run, Hresponse, Hrun.
Qed.

(** ** Owner Resolver by creator *)

Lemma user_id_lookup event :
  default ∅ (attributes event !! "user") !! "id" = event_user_id event.
Proof.
  unfold event_user_id.
  destruct (attributes event !! "user") as [user|]; [reflexivity|].
  apply lookup_empty.
Qed.

Lemma truthy_nonempty (s : string) : s <> "" -> truthy (Some s) = true.
Proof. destruct s; [contradiction | reflexivity]. Qed.

(** X1. [get_dashboard_creator_user_id] sends one audit search, filtered to the
    dashboard id and without page options, and reads the first event of
    the answer only: it returns that event's user id, [None] when the
    event has no user or the user no id, and [None] when there is no
    event.  It has no handler of its own: a failing search raises. *)
Theorem creator_lookup_first_event (dd : Datadog) (dashboard_id : string) (w : World) :
  let request :=
    {| filter := Some {| _from := "now-1m";
                         query := "@evt.name:Dashboard AND @action:created AND @asset.id:"
                                  +:+ dashboard_id;
                         to := "now" |};
       options := None; page := None; sort := None |} in
  Dashboard.get_dashboard_creator_user_id dd dashboard_id w =
    match audit_api dd request with
    | Ok response =>
        (Returned (head (data response) ≫= event_user_id),
         called (SearchAuditLogs request) w)
    | Fails e => (Raised e, called (SearchAuditLogs request) w)
    end.
Proof.
  cbv zeta. rewrite get_dashboard_creator_user_id_run.
  change (Dashboard.creator_request dashboard_id)
    with {| filter := Some {| _from := "now-1m";
                              query := "@evt.name:Dashboard AND @action:created AND @asset.id:"
                                       +:+ dashboard_id;
                              to := "now" |};
            options := None; page := None; sort := None |}.
  destruct (audit_api dd _) as [response|e]; [|reflexivity].
  destruct (data response) as [|event events]; [reflexivity|].
  cbn. now rewrite user_id_lookup.
Qed.

(** ** The dashboard batch *)

Lemma dashboard_iteration dd dashboard_id w :
  exists w' group lines,
    Dashboard.guarded dd dashboard_id w = (Returned tt, w')
    /\ calls w' = calls w ++ group
    /\ iteration_calls dashboard_id group
    /\ stdout w' = stdout w ++ lines
    /\ Exists (fun line => Val dashboard_id ∈ line) lines
    /\ 1 <= length lines <= 2.
Proof.
  rewrite dashboard_guarded_run. cbv zeta.
  destruct (audit_api dd _) as [response|e].
  2:{ eexists _, [_], [_]. split; [reflexivity|].
      repeat split; [now left | | cbn; lia | cbn; lia].
      constructor. set_solver. }
  destruct (truthy _) eqn:Hu.
  2:{ eexists _, [_], [_]. split; [reflexivity|].
      repeat split; [now left | | cbn; lia | cbn; lia].
      constructor. set_solver. }
  destruct (user_memberships dd _) as [[|team teams]|e].
  - eexists _, [_; _], [_]. split; [reflexivity|].
    cbn [printed called calls stdout]. rewrite <- !app_assoc.
    repeat split; [right; left; eauto | | cbn; lia | cbn; lia].
    constructor. set_solver.
  - destruct (truthy (Some (id team))) eqn:Ht.
    + destruct (policy_rejection dd _ _) as [e|].
      * eexists _, [_; _; _], [_]. split; [reflexivity|].
        cbn [printed called calls stdout]. rewrite <- !app_assoc.
        repeat split; [right; right; eauto | | cbn; lia | cbn; lia].
        constructor. set_solver.
      * eexists _, [_; _; _], [_]. split; [reflexivity|].
        cbn [printed stored called calls stdout]. rewrite <- !app_assoc.
        repeat split; [right; right; eauto | | cbn; lia | cbn; lia].
        constructor. set_solver.
    + eexists _, [_; _], [_]. split; [reflexivity|].
      cbn [printed called calls stdout]. rewrite <- !app_assoc.
      repeat split; [right; left; eauto | | cbn; lia | cbn; lia].
      constructor. set_solver.
  - eexists _, [_; _], [_; _]. split; [reflexivity|].
    cbn [printed called calls stdout]. rewrite <- !app_assoc.
    repeat split; [right; left; eauto | | cbn; lia | cbn; lia].
    apply Exists_cons_tl. constructor. set_solver.
Qed.

Lemma dashboard_batch_shape dd dashboard_ids w :
  exists w' groups liness,
    for_each dashboard_ids (Dashboard.guarded dd) w = (Returned tt, w')
    /\ calls w' = calls w ++ concat groups
    /\ Forall2 iteration_calls dashboard_ids groups
    /\ stdout w' = stdout w ++ concat liness
    /\ Forall2 (fun dashboard_id lines =>
                  Exists (fun line => Val dashboard_id ∈ line) lines
                  /\ 1 <= length lines <= 2)
               dashboard_ids liness.
Proof.
  revert w. induction dashboard_ids as [|R rest IH]; intros w.
  - exists w, [], []. cbn [concat]. rewrite !app_nil_r.
    repeat split; constructor.
  - destruct (dashboard_iteration dd R w)
      as (w1 & group & lines & Hrun & Hcalls & Hshape & Hout & Hline & Hlen).
    destruct (IH w1) as (w' & groups & liness & Hrest & Hcalls' & Hshapes & Hout' & Hlines).
    exists w', (group :: groups), (lines :: liness).
    split; [now rewrite (for_each_cons_returned _ _ _ _ _ Hrun)|].
    cbn [concat]. rewrite Hcalls', Hcalls, Hout', Hout, <- !app_assoc.
    repeat split; constructor; auto.
Qed.

(** X6. In a dashboard batch every id gets exactly one iteration, in batch
    order, and an iteration makes one, two or three calls: the creator
    search, then the membership listing, then a single policy write for
    that very dashboard.  Nothing is retried and nothing is written
    before both lookups. *)
Theorem dashboard_batch_calls (dd : Datadog) (dashboard_ids : list string) (w : World) :
  exists w' groups,
    for_each dashboard_ids (Dashboard.guarded dd) w = (Returned tt, w')
    /\ calls w' = calls w ++ concat groups
    /\ Forall2 iteration_calls dashboard_ids groups.
Proof.
  destruct (dashboard_batch_shape dd dashboard_ids w)
    as (w' & groups & liness & Hrun & Hcalls & Hshapes & _).
  now exists w', groups.
Qed.

(** X7. Every dashboard of a batch leaves a trace on standard output: one or
    two lines per dashboard, in batch order, one of which names it.  No
    dashboard is skipped silently. *)
Theorem dashboard_batch_lines (dd : Datadog) (dashboard_ids : list string) (w : World) :
  exists w' liness,
    for_each dashboard_ids (Dashboard.guarded dd) w = (Returned tt, w')
    /\ stdout w' = stdout w ++ concat liness
    /\ Forall2 (fun dashboard_id lines =>
                  Exists (fun line => Val dashboard_id ∈ line) lines
                  /\ 1 <= length lines <= 2)
               dashboard_ids liness.
Proof.
  destruct (dashboard_batch_shape dd dashboard_ids w)
    as (w' & groups & liness & Hrun & _ & _ & Hout & Hlines).
  now exists w', liness.
Qed.

(** X8. The dashboard pipeline end to end: the policy written for a dashboard
    names the first team of the user of the first creation event found
    for it, provided both ids are non-empty and the write is accepted. *)
Theorem dashboard_write_end_to_end
    (dd : Datadog) (dashboard_id : string) (response : AuditLogsEventsResponse)
    (user_id : string) (team : Team) (more : list Team) (w : World) :
  audit_api dd (Dashboard.creator_request dashboard_id) = Ok response ->
  head (data response) ≫= event_user_id = Some user_id ->
  user_id <> "" ->
  user_memberships dd user_id = Ok (team :: more) ->
  id team <> "" ->
  policy_rejection dd ("dashboard:" +:+ dashboard_id)
    (Dashboard.policy_body (id team) dashboard_id) = None ->
  Dashboard.guarded dd dashboard_id w =
    (Returned tt,
     {| calls :=
          calls w ++
          [ SearchAuditLogs (Dashboard.creator_request dashboard_id);
            GetUserMemberships user_id;
            UpdateRestrictionPolicy ("dashboard:" +:+ dashboard_id)
              (Dashboard.policy_body (id team) dashboard_id) ];
        stdout :=
          stdout w ++
          [ [Lit "✅ Permissions set for dashboard ID: "; Val dashboard_id] ];
        policies :=
          <["dashboard:" +:+ dashboard_id :=
              policy_data (Dashboard.policy_body (id team) dashboard_id)]>
            (policies w) |}).
Proof.
  intros Hresponse Huser Hnonempty Hteams Hteam Haccepted.
  rewrite dashboard_guarded_run. cbv zeta. rewrite Hresponse.
  assert (Hu : match data response with
               | event :: _ => default ∅ (attributes event !! "user") !! "id"
               | [] => None
               end = Some user_id).
  { destruct (data response) as [|event events]; [discriminate|].
    cbn in Huser. now rewrite user_id_lookup. }
  rewrite Hu, (truthy_nonempty _ Hnonempty).
  change (str_of (Some user_id)) with user_id.
  rewrite Hteams, (truthy_nonempty _ Hteam), Haccepted.
  unfold printed, stored, called. cbn [calls stdout policies].
  now rewrite <- !app_assoc.
Qed.

(** X9. The monitor pipeline end to end: the policy written for a monitor
    names the first team the directory finds for the value of the
    monitor's last [team] tag, provided the id parses, every tag has a
    colon, the team id is non-empty and the write is accepted. *)
Theorem monitor_write_end_to_end
    (dd : Datadog) (monitor_id : string) (n : Z) (monitor : Monitor)
    (tag : string) (team : Team) (more : list Team) (w : World) :
  int_literal monitor_id = Some n ->
  monitors dd n = Ok monitor ->
  Forall (fun t => has_colon t = true) (tags monitor) ->
  last_with_key "team" (tags monitor) = Some tag ->
  teams dd (between_colons tag) = Ok (team :: more) ->
  id team <> "" ->
  policy_rejection dd ("monitor:" +:+ monitor_id)
    (Monitor.policy_body (id team) monitor_id) = None ->
  Monitor.process dd monitor_id w =
    (Returned tt,
     {| calls :=
          calls w ++
          [ GetMonitor n;
            ListTeams (between_colons tag);
            UpdateRestrictionPolicy ("monitor:" +:+ monitor_id)
              (Monitor.policy_body (id team) monitor_id) ];
        stdout :=
          stdout w ++ [ [Lit "✅ Permissions set for monitor ID: "; Val monitor_id] ];
        policies :=
          <["monitor:" +:+ monitor_id :=
              policy_data (Monitor.policy_body (id team) monitor_id)]>
            (policies w) |}).
Proof.
  intros Hint Hmonitor Hcolon Htag Hteams Hteam Haccepted.
  rewrite monitor_process_run, get_monitor_team_full_run. cbv zeta.
  rewrite Hint, Hmonitor.
  replace (forallb has_colon (tags monitor)) with true.
  2:{ symmetry. apply forallb_forall. now apply List.Forall_forall. }
  rewrite Htag, Hteams, (truthy_nonempty _ Hteam), Haccepted.
  unfold printed, stored, called. cbn [calls stdout policies].
  now rewrite <- !app_assoc.
Qed.

(** ** The monitor iteration *)

(** X10. [get_monitor_team] beyond the tags, for a monitor id made of ASCII
    characters: an id that [int] rejects (not a decimal literal, or more
    than 4300 digits) raises
    [ValueError] before any call is made; a failing monitor fetch raises
    after that one call; and a team name is only ever returned for a
    fetched monitor whose tags all have a colon, as the value of its last
    [team] tag. *)
Theorem owner_by_tag_outcomes (dd : Datadog) (monitor_id : string) (w : World) :
  ascii_only monitor_id = true ->
  (int_literal monitor_id = None ->
   Monitor.get_monitor_team dd monitor_id w = (Raised (ValueError monitor_id), w))
  /\
  (forall n e,
     int_literal monitor_id = Some n ->
     monitors dd n = Fails e ->
     Monitor.get_monitor_team dd monitor_id w = (Raised e, called (GetMonitor n) w))
  /\
  (forall team_name w1,
     Monitor.get_monitor_team dd monitor_id w = (Returned team_name, w1) ->
     exists n monitor tag,
       int_literal monitor_id = Some n
       /\ monitors dd n = Ok monitor
       /\ w1 = called (GetMonitor n) w
       /\ Forall (fun t => has_colon t = true) (tags monitor)
       /\ last_with_key "team" (tags monitor) = Some tag
       /\ team_name = between_colons tag).
Proof.
  intros _. rewrite get_monitor_team_full_run. cbv zeta. split; [|split].
  - now intros ->.
  - intros n e -> Hfails. now rewrite Hfails.
  - intros team_name w1.
    destruct (int_literal monitor_id) as [n|]; [|discriminate].
    destruct (monitors dd n) as [monitor|e] eqn:Hmonitor; [|discriminate].
    destruct (forallb has_colon (tags monitor)) eqn:Hcolon; [|discriminate].
    destruct (last_with_key "team" (tags monitor)) as [tag|] eqn:Htag;
      [|discriminate].
    intros [= <- <-]. exists n, monitor, tag.
    split; [reflexivity|]. split; [exact Hmonitor|]. split; [reflexivity|].
    split; [|split; [exact Htag | reflexivity]].
    apply List.Forall_forall. now apply forallb_forall.
Qed.

(** X11. One monitor iteration raises in two ways only: the Owner Resolver
    raises, or the policy service rejects the write.  A failing team
    search never does: it is printed and the monitor is reported as
    having no team. *)
Theorem monitor_iteration_raises
    (dd : Datadog) (monitor_id : string) (w : World) (e : Exception) :
  (Monitor.process dd monitor_id w).1 = Raised e
  <->
  (Monitor.get_monitor_team dd monitor_id w).1 = Raised e
  \/ (exists team_name w1 team more,
        Monitor.get_monitor_team dd monitor_id w = (Returned team_name, w1)
        /\ teams dd team_name = Ok (team :: more)
        /\ id team <> ""
        /\ policy_rejection dd ("monitor:" +:+ monitor_id)
             (Monitor.policy_body (id team) monitor_id) = Some e).
Proof.
  rewrite monitor_process_run. cbv zeta.
  destruct (Monitor.get_monitor_team dd monitor_id w) as [[team_name|e0|] w1].
  - assert (Hright :
      (exists team_name' w1' team more,
         (Returned team_name, w1) = (Returned team_name', w1')
         /\ teams dd team_name' = Ok (team :: more)
         /\ id team <> ""
         /\ policy_rejection dd ("monitor:" +:+ monitor_id)
              (Monitor.policy_body (id team) monitor_id) = Some e)
      <-> (exists team more,
             teams dd team_name = Ok (team :: more)
             /\ id team <> ""
             /\ policy_rejection dd ("monitor:" +:+ monitor_id)
                  (Monitor.policy_body (id team) monitor_id) = Some e)).
    { split.
      - intros (? & ? & team & more & [= <- <-] & Hteams & Hne & Hrej). eauto.
      - intros (team & more & Hteams & Hne & Hrej).
        exists team_name, w1, team, more. eauto. }
    cbn [fst]. rewrite Hright.
    destruct (teams dd team_name) as [[|team more]|e1].
    + split; [discriminate|].
      intros [Hraise|(? & ? & [=] & _)]. discriminate.
    + destruct (id team) as [|c s] eqn:Hid; cbn [truthy].
      * split; [discriminate|].
        intros [Hraise|(team' & ? & [= <- <-] & Hne & _)];
          [discriminate | congruence].
      * destruct (policy_rejection dd _ _) as [e1|] eqn:Hrej; cbn [fst].
        -- split.
           ++ intros [= <-]. right. exists team, more.
              rewrite Hid. repeat split; [discriminate | exact Hrej].
           ++ intros [Hraise|(team' & ? & [= <- <-] & _ & Hrej')];
                [discriminate|].
              rewrite Hid, Hrej in Hrej'. congruence.
        -- split; [discriminate|].
           intros [Hraise|(team' & ? & [= <- <-] & _ & Hrej')];
             [discriminate|].
           rewrite Hid, Hrej in Hrej'. discriminate.
    + split; [discriminate|].
      intros [Hraise|(? & ? & [=] & _)]. discriminate.
  - cbn [fst]. split; [intros [= ->]; now left|].
    intros [[= ->]|(? & ? & ? & ? & [=] & _)]. reflexivity.
  - cbn [fst]. split; [discriminate|].
    intros [Hraise|(? & ? & ? & ? & [=] & _)]. discriminate.
Qed.

Lemma for_each_app {A} (body : A -> Py unit) l1 l2 w w1 :
  for_each l1 body w = (Returned tt, w1) ->
  for_each (l1 ++ l2) body w = for_each l2 body w1.
Proof.
  revert w. induction l1 as [|x l1 IH]; intros w Hrun.
  - now injection Hrun as <-.
  - cbn [for_each app] in *. unfold bind in *.
    destruct (body x w) as [[[]|e|] w0]; [now apply IH | discriminate | discriminate].
Qed.

(** X12. The monitor batch stops at its first failing iteration, wherever it
    is: what the iterations before it did stays done, the failure is
    printed once by the top-level handler, and the monitors after it are
    not touched. *)
Theorem monitor_batch_stops_at_first_failure
    (dd : Datadog) (before : list string) (R : string) (later : list string)
    (w w0 w1 w2 : World) (e : Exception) :
  Monitor.get_monitors_created_last_minute dd w
    = (Returned (before ++ R :: later), w0) ->
  for_each before (Monitor.process dd) w0 = (Returned tt, w1) ->
  Monitor.process dd R w1 = (Raised e, w2) ->
  Monitor.lambda_handler dd w =
    (Returned tt, printed [Lit "🚨 An error occurred: "; Err e] w2).
Proof.
  intros Hids Hbefore Hraise. unfold Monitor.lambda_handler.
  erewrite try_raised; [reflexivity|].
  rewrite (bind_returned _ _ _ _ _ Hids).
  replace (truthy_list (before ++ R :: later)) with true
    by now destruct before.
  rewrite (for_each_app _ _ _ _ _ Hbefore).
  now apply for_each_cons_raised.
Qed.

(** ** The further properties at concrete services *)

Lemma empty_batch_stops_pipeline_witness :
  Dashboard.lambda_handler (synthetic []) 1 initial_world =
    (Returned tt,
     printed [Lit "ℹ️ No dashboards were created in the last minute."]
       (searched [None] initial_world))
  /\
  Monitor.lambda_handler (synthetic []) initial_world =
    (Returned tt,
     printed [Lit "ℹ️ No monitors were created in the last minute."]
       (called (SearchAuditLogs Monitor.page_request) initial_world)).
Proof.
  destruct (empty_batch_stops_pipeline (synthetic [])) as [Hdashboards Hmonitors].
  split.
  - apply (Hdashboards [empty_page] 1 initial_world).
    + apply linked_last; reflexivity.
    + repeat constructor.
    + repeat constructor.
  - apply (Hmonitors empty_page initial_world); reflexivity.
Defined.

Lemma change_detector_failure_witness :
  Dashboard.lambda_handler second_page_fails 2 initial_world =
    (Returned tt,
     printed [Lit "🚨 An error occurred: ";
              Err (ApiException 503 "Service Unavailable")]
       (searched [None; Some "next"] initial_world))
  /\
  Monitor.lambda_handler audit_down initial_world =
    (Returned tt,
     printed [Lit "🚨 An error occurred: ";
              Err (ApiException 503 "Service Unavailable")]
       (called (SearchAuditLogs Monitor.page_request) initial_world)).
Proof.
  split.
  - destruct (change_detector_failure_stops_pipeline second_page_fails)
      as [Hdashboards _].
    apply (Hdashboards [first_page] [["a1"; "a2"]] (Some "next")).
    + eapply walk_step; [reflexivity | reflexivity | apply walk_done].
    + repeat constructor.
    + reflexivity.
    + repeat constructor.
  - destruct (change_detector_failure_stops_pipeline audit_down)
      as [_ Hmonitors].
    now apply Hmonitors.
Defined.

Lemma malformed_event_witness :
  (exists key,
     (key = "asset" \/ key = "id")
     /\ Dashboard.lambda_handler one_malformed 1 initial_world =
          (Returned tt,
           printed [Lit "🚨 An error occurred: "; Err (KeyError key)]
             (called (SearchAuditLogs (Dashboard.page_request None)) initial_world)))
  /\
  (exists key,
     (key = "asset" \/ key = "id")
     /\ Monitor.lambda_handler one_malformed initial_world =
          (Returned tt,
           printed [Lit "🚨 An error occurred: "; Err (KeyError key)]
             (called (SearchAuditLogs Monitor.page_request) initial_world))).
Proof.
  destruct (malformed_event_drops_batch one_malformed) as [Hdashboards Hmonitors].
  split.
  - apply (Hdashboards malformed_response 1 initial_world).
    + reflexivity.
    + apply Exists_cons_tl, Exists_cons_hd. reflexivity.
    + repeat constructor.
  - apply (Hmonitors malformed_response initial_world).
    + reflexivity.
    + apply Exists_cons_tl, Exists_cons_hd. reflexivity.
Defined.

Lemma dashboard_write_end_to_end_witness :
  policies (Dashboard.guarded first_write_rejected "2" initial_world).2
    !! "dashboard:2"
  = Some (policy_data (Dashboard.policy_body "team-a" "2")).
Proof.
  rewrite (dashboard_write_end_to_end first_write_rejected "2"
             {| data := [event_of "2" "u2"]; meta := none |}
             "u2" {| id := "team-a"; name := "a" |} [] initial_world).
  - reflexivity.
  - reflexivity.
  - reflexivity.
  - discriminate.
  - reflexivity.
  - discriminate.
  - reflexivity.
Defined.

Lemma monitor_write_end_to_end_witness :
  policies (Monitor.process first_write_rejected "2" initial_world).2
    !! "monitor:2"
  = Some (policy_data (Monitor.policy_body "team-a" "2")).
Proof.
  rewrite (monitor_write_end_to_end first_write_rejected "2" 2
             {| tags := ["env:prod"; "team:a"] |} "team:a"
             {| id := "team-a"; name := "a" |} [] initial_world).
  - reflexivity.
  - reflexivity.
  - reflexivity.
  - repeat constructor.
  - reflexivity.
  - reflexivity.
  - discriminate.
  - reflexivity.
Defined.

Lemma owner_by_tag_outcomes_witness :
  Monitor.get_monitor_team section8 "abc" initial_world
    = (Raised (ValueError "abc"), initial_world)
  /\
  Monitor.get_monitor_team two_pages "5" initial_world
    = (Raised (ApiException 404 "Not Found"), called (GetMonitor 5) initial_world)
  /\
  (exists tag,
     last_with_key "team"
       ["env:prod"; "team:a:b"; "service:web"; "team:core:x"; "tier:1"] = Some tag
     /\ "core" = between_colons tag).
Proof.
  split; [|split].
  - destruct (owner_by_tag_outcomes section8 "abc" initial_world eq_refl)
      as (Hvalue & _).
    now apply Hvalue.
  - destruct (owner_by_tag_outcomes two_pages "5" initial_world eq_refl)
      as (_ & Hfetch & _).
    now apply Hfetch.
  - destruct (owner_by_tag_outcomes section8 "42" initial_world eq_refl)
      as (_ & _ & Hback).
    destruct (Hback "core" (called (GetMonitor 42) initial_world) eq_refl)
      as (n & monitor & tag & Hint & Hmonitor & _ & _ & Htag & Hname).
    injection Hint as <-. injection Hmonitor as <-.
    now exists tag.
Defined.

Lemma monitor_iteration_raises_witness :
  (Monitor.process first_write_rejected "1" initial_world).1
  = Raised (ApiException 500 "Internal Server Error").
Proof.
  apply monitor_iteration_raises. right.
  exists "a", (called (GetMonitor 1) initial_world),
    {| id := "team-a"; name := "a" |}, [].
  repeat split. discriminate.
Defined.

Lemma handlers_write_only_batch_witness :
  policies (Dashboard.lambda_handler first_write_rejected 1
              (stored "monitor:7" (policy_data (Monitor.policy_body "t" "7"))
                 initial_world)).2 !! "monitor:7"
  = Some (policy_data (Monitor.policy_body "t" "7")).
Proof.
  destruct (handlers_write_only_batch_policies first_write_rejected "monitor:7")
    as [Hdashboards _].
  rewrite (Hdashboards 1 _ ["1"; "2"]
             (Dashboard.get_dashboards_created_last_minute first_write_rejected 1
                (stored "monitor:7" (policy_data (Monitor.policy_body "t" "7"))
                   initial_world)).2).
  - reflexivity.
  - reflexivity.
  - intros dashboard_id _ Hsame. discriminate Hsame.
Defined.

Lemma monitor_batch_stops_witness :
  Monitor.lambda_handler rejected_in_the_middle initial_world =
    (Returned tt,
     printed [Lit "🚨 An error occurred: ";
              Err (ApiException 500 "Internal Server Error")]
       (Monitor.process rejected_in_the_middle "1"
          (Monitor.process rejected_in_the_middle "2"
             (called (SearchAuditLogs Monitor.page_request) initial_world)).2).2).
Proof.
  apply (monitor_batch_stops_at_first_failure rejected_in_the_middle
           ["2"] "1" ["3"] initial_world
           (called (SearchAuditLogs Monitor.page_request) initial_world)
           (Monitor.process rejected_in_the_middle "2"
              (called (SearchAuditLogs Monitor.page_request) initial_world)).2).
  - reflexivity.
  - reflexivity.
  - reflexivity.
Defined.

(** ** Pagination: what ends the loop *)

Lemma pagination_walk_unreadable dd start pages next :
  walk dd start pages next ->
  forall idss response ids attribute_name fuel acc w,
    Forall2 (fun response ids => has_ids (data response) ids) pages idss ->
    audit_api dd (Dashboard.page_request next) = Ok response ->
    has_ids (data response) ids ->
    paging_of response = Unreadable attribute_name ->
    length pages < fuel ->
    Dashboard.pagination dd fuel acc start w =
      (Raised (ApiAttributeError attribute_name),
       searched (start :: map carried_cursor pages) w).
Proof.
  induction 1 as [start|start page c rest next Hresp Hnext Hrest IH];
    intros idss response ids attribute_name fuel acc w Hids Hlast Hhas' Hpaging Hfuel;
    (destruct fuel as [|fuel]; [cbn in Hfuel; lia|]);
    rewrite pagination_step.
  - rewrite Hlast, (comprehension_asset_ids _ ids _ Hhas').
    unfold carried_cursor. now rewrite Hpaging.
  - apply Forall2_cons_inv_l in Hids as (ids0 & idss' & Hhas & Hids' & ->).
    rewrite Hresp, (comprehension_asset_ids _ ids0 _ Hhas), Hnext.
    rewrite (IH idss' response ids attribute_name fuel (acc ++ ids0) _
               Hids' Hlast Hhas' Hpaging) by (cbn in Hfuel; lia).
    rewrite searched_called. cbn [map]. now rewrite Hnext.
Qed.

(** X16. When the response to a page request leaves [meta], [meta.page]
    or [after] unset, reading it raises [ApiAttributeError]: the Change
    Detector returns no id, those of the pages before included, and the
    orchestrator prints the exception and processes no dashboard. *)
Theorem unset_paging_attribute_stops_pipeline
    (dd : Datadog) (pages : list AuditLogsEventsResponse)
    (idss : list (list string)) (next : option string)
    (response : AuditLogsEventsResponse) (ids : list string)
    (attribute_name : string) (fuel : nat) (w : World) :
  walk dd None pages next ->
  Forall2 (fun response ids => has_ids (data response) ids) pages idss ->
  audit_api dd (Dashboard.page_request next) = Ok response ->
  has_ids (data response) ids ->
  paging_of response = Unreadable attribute_name ->
  length pages < fuel ->
  Dashboard.get_dashboards_created_last_minute dd fuel w =
    (Raised (ApiAttributeError attribute_name),
     searched (None :: map carried_cursor pages) w)
  /\
  Dashboard.lambda_handler dd fuel w =
    (Returned tt,
     printed [Lit "🚨 An error occurred: "; Err (ApiAttributeError attribute_name)]
       (searched (None :: map carried_cursor pages) w)).
Proof.
  intros Hwalk Hids Hlast Hhas Hpaging Hfuel.
  assert (Hrun :
    Dashboard.get_dashboards_created_last_minute dd fuel w =
      (Raised (ApiAttributeError attribute_name),
       searched (None :: map carried_cursor pages) w)).
  { unfold Dashboard.get_dashboards_created_last_minute.
    apply (pagination_walk_unreadable dd None pages next Hwalk idss response ids);
      assumption. }
  split; [exact Hrun|].
  unfold Dashboard.lambda_handler, try_except, bind. now rewrite Hrun.
Qed.

Lemma unset_paging_attribute_witness :
  Dashboard.lambda_handler last_page_leaves_page_out 1 initial_world =
    (Returned tt,
     printed [Lit "🚨 An error occurred: "; Err (ApiAttributeError "page")]
       (searched [None] initial_world)).
Proof.
  destruct (unset_paging_attribute_stops_pipeline last_page_leaves_page_out
              [] [] None page_without_cursor_attribute ["a1"; "a2"] "page"
              1 initial_world) as [_ Hhandler].
  - apply walk_done.
  - constructor.
  - reflexivity.
  - repeat constructor.
  - reflexivity.
  - repeat constructor.
  - exact Hhandler.
Defined.

(** C2. The dashboard Change Detector does not return the ids when the
    last page tells that there is no next page by leaving [meta.page]
    out: with one page of two events whose metadata has no [page]
    attribute, reading [response.meta.page] raises [ApiAttributeError],
    no id is returned and the orchestrator prints the exception instead
    of processing the two dashboards.  The guard of the conditional
    expression only covers attributes that are null: with [page] sent as
    null the same page gives both ids after one request. *)
Theorem last_page_without_page_attribute_raises :
  let run :=
    Dashboard.get_dashboards_created_last_minute
      last_page_leaves_page_out 2 initial_world in
  let handled := Dashboard.lambda_handler last_page_leaves_page_out 2 initial_world in
  let with_null :=
    Dashboard.get_dashboards_created_last_minute
      last_page_sends_null 2 initial_world in
  run.1 = Raised (ApiAttributeError "page")
  /\ calls run.2 = [SearchAuditLogs (Dashboard.page_request None)]
  /\ handled.1 = Returned tt
  /\ calls handled.2 = [SearchAuditLogs (Dashboard.page_request None)]
  /\ stdout handled.2 =
       [ [Lit "🚨 An error occurred: "; Err (ApiAttributeError "page")] ]
  /\ with_null.1 = Returned ["a1"; "a2"]
  /\ calls with_null.2 = [SearchAuditLogs (Dashboard.page_request None)].
Proof. cbv zeta. repeat apply conj; vm_compute; reflexivity. Qed.

(** *** Cursor sequences that never repeat *)

Lemma carried_cursor_token events n :
  carried_cursor
    {| data := events;
       meta := value {| meta_page := value {| after := value (token_of (S n)) |} |} |}
  = Some (token_of (S n)).
Proof. reflexivity. Qed.

Lemma next_cursor_ever_new token :
  next_cursor ever_new_cursors token = Some (token_of (S (offset_of token))).
Proof. unfold next_cursor. cbn [ever_new_cursors audit_api]. apply carried_cursor_token. Qed.

Lemma cursor_seq_ever_new k :
  cursor_seq ever_new_cursors None k = Some (token_of (S k)).
Proof.
  induction k as [|k IH]; [apply next_cursor_ever_new|].
  cbn [cursor_seq]. rewrite IH, next_cursor_ever_new.
  cbn [offset_of]. now rewrite token_of_length.
Qed.

Lemma pagination_ever_new fuel :
  forall acc token w,
    (Dashboard.pagination ever_new_cursors fuel acc token w).1 = OutOfFuel.
Proof.
  induction fuel as [|fuel IH]; intros acc token w; [reflexivity|].
  rewrite pagination_step. cbn [ever_new_cursors audit_api data comprehension ret].
  rewrite carried_cursor_token. apply IH.
Qed.

(** Never repeating a cursor is not enough for the loop to end: the
    cursors of [ever_new_cursors] are all different, and against it the
    loop runs out of any fuel. *)
Lemma never_repeating_cursors_need_not_end :
  (forall i j c,
     cursor_seq ever_new_cursors None i = Some c ->
     cursor_seq ever_new_cursors None j = Some c ->
     i = j)
  /\
  (forall fuel w,
     (Dashboard.get_dashboards_created_last_minute ever_new_cursors fuel w).1
     = OutOfFuel).
Proof.
  split.
  - intros i j c. rewrite !cursor_seq_ever_new. intros Hi Hj.
    assert (Hsame : String.length (token_of (S i)) = String.length (token_of (S j)))
      by congruence.
    rewrite !token_of_length in Hsame. lia.
  - intros fuel w. apply pagination_ever_new.
Qed.

(** C3. The dashboard pagination loop ends when the audit log hands out
    finitely many cursors and its cursor sequence never repeats one: the
    sequence then yields no cursor at some page [k], at most as many pages
    in as there are cursors; [k + 1] iterations are enough and more fuel
    changes nothing.  A normal return happens only at the first page that
    carries no cursor: after [j + 1] requests, where page [j] is the first
    one without cursor. *)
Theorem pagination_terminates (dd : Datadog) (cs : list string) :
  (forall i c, cursor_seq dd None i = Some c -> c ∈ cs) ->
  (forall i j c,
     cursor_seq dd None i = Some c -> cursor_seq dd None j = Some c -> i = j) ->
  exists k,
    k <= length cs
    /\ cursor_seq dd None k = None
    /\ (forall fuel w,
          k < fuel ->
          Dashboard.get_dashboards_created_last_minute dd fuel w
            = Dashboard.get_dashboards_created_last_minute dd (S k) w
          /\ (Dashboard.get_dashboards_created_last_minute dd (S k) w).1
             <> OutOfFuel)
    /\ (forall fuel w ids w',
          Dashboard.get_dashboards_created_last_minute dd fuel w
            = (Returned ids, w') ->
          exists j, j < fuel
            /\ cursor_seq dd None j = None
            /\ (forall i, i < j -> cursor_seq dd None i <> None)
            /\ length (calls w') = length (calls w) + S j).
Proof.
  intros Hfinite Hnorepeat.
  destruct (never_repeating_sequence_ends dd cs Hfinite Hnorepeat)
    as (k & Hk & Hnone).
  exists k. split; [exact Hk|]. split; [exact Hnone|]. split.
  - intros fuel w Hfuel. now apply pagination_ends.
  - intros fuel w ids w'. apply pagination_returns_at_no_cursor.
Qed.

Lemma cursor_seq_two_pages i c :
  cursor_seq two_pages None i = Some c -> i = 0 /\ c = "next".
Proof.
  destruct i as [|i].
  - intros [= <-]. split; reflexivity.
  - rewrite (cursor_seq_None_stays two_pages None 1 (S i)); [discriminate | reflexivity | lia].
Qed.

Lemma pagination_terminates_witness :
  (Dashboard.get_dashboards_created_last_minute two_pages 5 initial_world).1
  <> OutOfFuel.
Proof.
  destruct (pagination_terminates two_pages ["next"]) as (k & Hk & _ & Hends & _).
  - intros i c Hc. apply cursor_seq_two_pages in Hc as [_ ->]. left.
  - intros i j c Hi Hj.
    apply cursor_seq_two_pages in Hi as [-> _].
    apply cursor_seq_two_pages in Hj as [-> _]. reflexivity.
  - destruct (Hends 5 initial_world) as [Hsame Hne].
    + cbn [length] in Hk. lia.
    + rewrite Hsame. exact Hne.
Defined.
